(** * wickit.shuffle: service registration, discovery and health monitoring

    A shallow embedding of [packages/python/src/wickit/shuffle.py]:
    [ServiceRegistry], [ServiceVerifier], [ServiceDiscovery] and
    [HealthMonitor], with the properties the specification states
    about them.

    The network, the clock, the process table and the optional zeroconf
    package are the environment: every function below takes their
    answers as explicit arguments.  Exceptions are values of [result]. *)

From Stdlib Require Import ZArith List String Ascii Bool Lia DecimalString.
Import ListNotations.
Local Open Scope Z_scope.
Local Open Scope string_scope.

Module Shuffle.

(** ** Python values

    Dataclass fields are not checked at run time and the scanner stores
    whatever [json.loads] produced, so the fields of a record are Python
    values.  [PDict] lists the bindings of a dict in insertion order;
    keys are strings, as in every JSON object.  Floating-point numbers
    are left out: the only one the protocol carries, [uptime_seconds],
    is never read by the scanner or the monitor. *)

#[local] Unset Elimination Schemes.
Inductive pyval : Type :=
| PNone
| PBool (b : bool)
| PInt (z : Z)
| PStr (s : string)
| PList (l : list pyval)
| PDict (m : list (string * pyval)).
#[local] Set Elimination Schemes.

(** [d[key]] on the bindings of a dict: the first binding of [key]. *)
Fixpoint lookup (key : string) (m : list (string * pyval)) : option pyval :=
  match m with
  | [] => None
  | (k, v) :: m' => if String.eqb key k then Some v else lookup key m'
  end.

Definition keys (m : list (string * pyval)) : list string := map fst m.

(** [d.get(key)]: the value, or [None] when the key is absent. *)
Definition dict_get (m : list (string * pyval)) (key : string) : pyval :=
  match lookup key m with
  | Some v => v
  | None => PNone
  end.

Section Forall2b.
Context {A B : Type}.
Variable f : A -> B -> bool.

Fixpoint forall2b (xs : list A) (ys : list B) {struct xs} : bool :=
  match xs, ys with
  | [], [] => true
  | x :: xs', y :: ys' => f x y && forall2b xs' ys'
  | _, _ => false
  end.
End Forall2b.

(** Python's [==] on these values: [bool] is a subclass of [int], so
    [True == 1]; lists compare element-wise; dicts compare as maps, that
    is, same size and every binding of the left one found equal in the
    right one. *)
Fixpoint py_eq (a b : pyval) {struct a} : bool :=
  match a, b with
  | PNone, PNone => true
  | PBool x, PBool y => Bool.eqb x y
  | PBool x, PInt y => Z.eqb (Z.b2z x) y
  | PInt x, PBool y => Z.eqb x (Z.b2z y)
  | PInt x, PInt y => Z.eqb x y
  | PStr x, PStr y => String.eqb x y
  | PList xs, PList ys => forall2b py_eq xs ys
  | PDict m, PDict n =>
      Nat.eqb (List.length m) (List.length n) &&
      forallb (fun kv =>
                 match lookup (fst kv) n with
                 | Some w => py_eq (snd kv) w
                 | None => false
                 end) m
  | _, _ => false
  end.

(** [a != b]. *)
Definition py_ne (a b : pyval) : bool := negb (py_eq a b).

(** A Python dict binds each key once.  [unique_keys v] says that the
    bindings listed in [v], at every depth, respect this. *)
Fixpoint distinct (ks : list string) : bool :=
  match ks with
  | [] => true
  | k :: ks' => negb (existsb (String.eqb k) ks') && distinct ks'
  end.

Fixpoint unique_keys (v : pyval) : bool :=
  match v with
  | PList l => forallb unique_keys l
  | PDict m => distinct (keys m) && forallb (fun kv => unique_keys (snd kv)) m
  | _ => true
  end.

(** Truth value of [x] in [if x and ...]. *)
Definition truthy_int (x : option Z) : bool :=
  match x with
  | Some z => negb (Z.eqb z 0)
  | None => false
  end.

Definition truthy_str (x : option string) : bool :=
  match x with
  | Some s => negb (String.eqb s "")
  | None => false
  end.

(** ** Exceptions *)

Inductive exn : Type :=
| URLError            (* urllib.error.URLError: refused, unreachable, DNS *)
| HTTPError           (* subclass of URLError: non-2xx status *)
| JSONDecodeError     (* json.JSONDecodeError, a ValueError *)
| KeyError
| ValueError
| TypeError
| AttributeError
| TimeoutError        (* socket.timeout while reading the response *)
| UnicodeDecodeError
| ImportError
| OSError
| OverflowError       (* bind() with a port outside 0..65535 *)
| NoAvailablePortError.

Inductive result (A : Type) : Type :=
| Ok (a : A)
| Raise (e : exn).
Arguments Ok {A} a.
Arguments Raise {A} e.

Definition bind {A B} (c : result A) (k : A -> result B) : result B :=
  match c with
  | Ok a => k a
  | Raise e => Raise e
  end.

Notation "x <- c ;; k" := (bind c (fun x => k))
  (at level 61, c at next level, right associativity).

(** ** The datetime library

    [datetime.fromisoformat], [isoformat] and [total_seconds] belong to
    the Python standard library, not to this repository: they are an
    interface here.  [fromisoformat s = None] stands for the
    [ValueError] raised on a string that is not an ISO-8601 timestamp;
    [total_seconds later earlier] is [(later - earlier).total_seconds()]
    as rendered in the health payload. *)

Class DateTime : Type := {
  datetime : Type;
  fromisoformat : string -> option datetime;
  isoformat : datetime -> string;
  total_seconds : datetime -> datetime -> pyval
}.

Section WithDateTime.
Context {DT : DateTime}.

(** ** ServiceInfo (the dataclass) *)

Record ServiceInfo : Type := {
  service_id : pyval;
  port : pyval;
  instance_id : pyval;
  pid : pyval;
  project_context : pyval;
  verification_token : pyval;
  start_time : datetime;
  status : pyval
}.

(** ** ServiceRegistry *)

(** What [zeroconf.ServiceInfo(...)] is built from in [_register_mdns]. *)
Inductive prop_value : Type :=
| AsIs (v : pyval)
| StrOf (v : pyval).                      (* str(v) *)

Record MdnsInfo : Type := {
  mdns_type : string;
  mdns_service_name : string;
  mdns_address : string;
  mdns_port : pyval;
  mdns_properties : list (string * prop_value);
  mdns_server : string
}.

Inductive Zeroconf : Type := ZeroconfHandle.

Record ServiceRegistry : Type := {
  reg_service_id : string;
  reg_port_range : Z * Z;
  reg_project_context : list (string * pyval);
  mdns_name : option string;
  service_info : option ServiceInfo;
  _zeroconf : option Zeroconf;
  _service_info : option MdnsInfo
}.

(** [ServiceRegistry.__init__]: [project_context or {}]. *)
Definition init (service_id : string) (port_range : Z * Z)
    (project_context : option (list (string * pyval)))
    (mdns_name : option string) : ServiceRegistry :=
  {| reg_service_id := service_id;
     reg_port_range := port_range;
     reg_project_context :=
       match project_context with
       | Some (b :: m) => b :: m
       | _ => []
       end;
     mdns_name := mdns_name;
     service_info := None;
     _zeroconf := None;
     _service_info := None |}.

Definition set_service_info (self : ServiceRegistry) (info : ServiceInfo)
    : ServiceRegistry :=
  {| reg_service_id := reg_service_id self;
     reg_port_range := reg_port_range self;
     reg_project_context := reg_project_context self;
     mdns_name := mdns_name self;
     service_info := Some info;
     _zeroconf := _zeroconf self;
     _service_info := _service_info self |}.

Definition set_mdns (self : ServiceRegistry) (z : Zeroconf) (info : MdnsInfo)
    : ServiceRegistry :=
  {| reg_service_id := reg_service_id self;
     reg_port_range := reg_port_range self;
     reg_project_context := reg_project_context self;
     mdns_name := mdns_name self;
     service_info := service_info self;
     _zeroconf := Some z;
     _service_info := Some info |}.

(** [range(lo, hi)] *)
Definition py_range (lo hi : Z) : list Z :=
  map (fun i => lo + Z.of_nat i) (seq 0 (Z.to_nat (hi - lo))).

(** *** Port allocation

    [bindable p] is the outcome of the listen-bind-close probe of
    [_is_port_available] for a port number [bind] accepts: [true] when
    [bind] succeeds, [false] when it raises [OSError].  For a number
    outside 0..65535 [bind] raises [OverflowError], which the probe does
    not handle.  Every function returns the ports it probed, in order,
    next to its result. *)

Definition valid_port (port : Z) : bool :=
  Z.leb 0 port && Z.leb port 65535.

Definition _is_port_available (bindable : Z -> bool) (port : Z) : result bool :=
  if valid_port port then Ok (bindable port) else Raise OverflowError.

Fixpoint first_available (bindable : Z -> bool) (ports : list Z)
    : list Z * result (option Z) :=
  match ports with
  | [] => ([], Ok None)
  | p :: rest =>
      match _is_port_available bindable p with
      | Raise e => ([p], Raise e)
      | Ok true => ([p], Ok (Some p))
      | Ok false =>
          let '(probed, r) := first_available bindable rest in
          (p :: probed, r)
      end
  end.

Definition _find_available_port (self : ServiceRegistry) (bindable : Z -> bool)
    : list Z * result Z :=
  let '(min_port, max_port) := reg_port_range self in
  match first_available bindable (py_range min_port (max_port + 1)) with
  | (probed, Ok (Some p)) => (probed, Ok p)
  | (probed, Ok None) => (probed, Raise NoAvailablePortError)
  | (probed, Raise e) => (probed, Raise e)
  end.

(** The first statement of [start]: [preferred_port and ...] probes the
    preferred port only when it is truthy. *)
Definition choose_port (self : ServiceRegistry) (bindable : Z -> bool)
    (preferred_port : option Z) : list Z * result Z :=
  match preferred_port with
  | Some p =>
      if truthy_int (Some p) then
        match _is_port_available bindable p with
        | Raise e => ([p], Raise e)
        | Ok true => ([p], Ok p)
        | Ok false =>
            let '(probed, r) := _find_available_port self bindable in
            (p :: probed, r)
        end
      else _find_available_port self bindable
  | None => _find_available_port self bindable
  end.

(** *** Optional mDNS announcement

    The zeroconf package and the resolver are the environment: each
    field is what the corresponding call does, [Ok] or the exception it
    raises. *)

Record mdns_env : Type := {
  import_zeroconf : result unit;       (* from zeroconf import ... *)
  new_zeroconf : result Zeroconf;      (* Zeroconf() *)
  local_ip : result string;            (* gethostbyname(gethostname()) *)
  make_info : result unit;             (* ServiceInfo(...), inet_aton *)
  register_service : result unit;
  unregister_service : result unit;
  close_zeroconf : result unit
}.

(** Lines written with [print]. *)
Inductive line : Type :=
| MdnsRegistered (name : option string) (port : pyval)
| ZeroconfNotInstalled
| MdnsUnregistered (name : option string).

(** What a method leaves behind: its result, the registry afterwards
    and the lines printed. *)
Record effect (A : Type) : Type := {
  returned : result A;
  after : ServiceRegistry;
  printed : list line
}.
Arguments returned {A} _.
Arguments after {A} _.
Arguments printed {A} _.

(** [{**base, key: v}] for one binding: overwrite in place or append. *)
Fixpoint dict_set {V : Type} (key : string) (v : V) (m : list (string * V))
    : list (string * V) :=
  match m with
  | [] => [(key, v)]
  | (k, w) :: m' =>
      if String.eqb key k then (k, v) :: m' else (k, w) :: dict_set key v m'
  end.

Definition service_type : string := "_http._tcp.local.".

(** The body of the [try] in [_register_mdns]. *)
Definition register_body (self : ServiceRegistry) (z : mdns_env)
    : result (Zeroconf * MdnsInfo) :=
  _ <- import_zeroconf z ;;
  zeroconf <- new_zeroconf z ;;
  ip <- local_ip z ;;
  info <- match service_info self with
          | Some info => Ok info
          | None => Raise AttributeError
          end ;;
  _ <- make_info z ;;
  let mdns :=
    {| mdns_type := service_type;
       mdns_service_name := reg_service_id self ++ "." ++ service_type;
       mdns_address := ip;
       mdns_port := port info;
       mdns_properties :=
         fold_left (fun props kv => dict_set (fst kv) (AsIs (snd kv)) props)
           (reg_project_context self)
           [("service_id", AsIs (service_id info));
            ("instance_id", AsIs (instance_id info));
            ("pid", StrOf (pid info));
            ("verification_token", AsIs (verification_token info))];
       mdns_server :=
         match mdns_name self with
         | Some n => n ++ "."
         | None => "None."
         end |} in
  _ <- register_service z ;;
  Ok (zeroconf, mdns).

(** [_register_mdns]: only [ImportError] is handled. *)
Definition _register_mdns (self : ServiceRegistry) (z : mdns_env)
    : effect unit :=
  match register_body self z with
  | Ok (zeroconf, mdns) =>
      {| returned := Ok tt;
         after := set_mdns self zeroconf mdns;
         printed :=
           [MdnsRegistered (mdns_name self)
              match service_info self with
              | Some info => port info
              | None => PNone
              end] |}
  | Raise ImportError =>
      {| returned := Ok tt; after := self; printed := [ZeroconfNotInstalled] |}
  | Raise e =>
      {| returned := Raise e; after := self; printed := [] |}
  end.

(** *** start *)

(** What the operating system answers during one call of [start]. *)
Record host_env : Type := {
  bindable : Z -> bool;
  uuid4_first : string;                (* str(uuid.uuid4()), first call *)
  uuid4_second : string;               (* str(uuid.uuid4()), second call *)
  getpid : Z;
  now : datetime;
  zeroconf_env : mdns_env
}.

Definition start (self : ServiceRegistry) (env : host_env)
    (preferred_port : option Z) : list Z * effect ServiceInfo :=
  match choose_port self (bindable env) preferred_port with
  | (probed, Raise e) =>
      (probed, {| returned := Raise e; after := self; printed := [] |})
  | (probed, Ok p) =>
      let info :=
        {| service_id := PStr (reg_service_id self);
           port := PInt p;
           instance_id := PStr (uuid4_first env);
           pid := PInt (getpid env);
           project_context := PDict (reg_project_context self);
           verification_token := PStr (uuid4_second env);
           start_time := now env;
           status := PStr "healthy" |} in
      let self1 := set_service_info self info in
      if truthy_str (mdns_name self1) then
        let r := _register_mdns self1 (zeroconf_env env) in
        match returned r with
        | Ok _ =>
            (probed, {| returned := Ok info; after := after r;
                        printed := printed r |})
        | Raise e =>
            (probed, {| returned := Raise e; after := after r;
                        printed := printed r |})
        end
      else
        (probed, {| returned := Ok info; after := self1; printed := [] |})
  end.

(** *** health_response *)

Definition health_response (self : ServiceRegistry) (now : datetime) : pyval :=
  match service_info self with
  | None => PDict [("error", PStr "Service not started")]
  | Some info =>
      let uptime_seconds := total_seconds now (start_time info) in
      PDict [("service", service_id info);
             ("status", status info);
             ("port", port info);
             ("instance_id", instance_id info);
             ("pid", pid info);
             ("verification_token", verification_token info);
             ("project_context", project_context info);
             ("mdns", match mdns_name self with
                      | Some n => PStr n
                      | None => PNone
                      end);
             ("uptime_seconds", uptime_seconds);
             ("start_time", PStr (isoformat (start_time info)))]
  end.

(** *** stop *)

Definition stop (self : ServiceRegistry) (z : mdns_env) : effect unit :=
  match _zeroconf self, _service_info self with
  | Some _, Some _ =>
      match (_ <- unregister_service z ;; close_zeroconf z) with
      | Ok _ =>
          {| returned := Ok tt; after := self;
             printed := [MdnsUnregistered (mdns_name self)] |}
      | Raise e =>
          {| returned := Raise e; after := self; printed := [] |}
      end
  | _, _ => {| returned := Ok tt; after := self; printed := [] |}
  end.

(** ** ServiceVerifier *)

Definition verify_service_identity (expected_service discovered_service : ServiceInfo)
    : bool :=
  let checks :=
    [py_eq (service_id expected_service) (service_id discovered_service);
     py_eq (instance_id expected_service) (instance_id discovered_service);
     py_eq (pid expected_service) (pid discovered_service);
     py_eq (verification_token expected_service)
           (verification_token discovered_service)] in
  forallb (fun c => c) checks.

(** ** ServiceDiscovery *)

(** [v.get(key)]: only a dict has the method. *)
Definition py_get (v : pyval) (key : string) : result pyval :=
  match v with
  | PDict m => Ok (dict_get m key)
  | _ => Raise AttributeError
  end.

(** [v[key]] with a string key. *)
Definition py_subscript (v : pyval) (key : string) : result pyval :=
  match v with
  | PDict m =>
      match lookup key m with
      | Some w => Ok w
      | None => Raise KeyError
      end
  | _ => Raise TypeError
  end.

(** [datetime.fromisoformat(v)] *)
Definition py_fromisoformat (v : pyval) : result datetime :=
  match v with
  | PStr s =>
      match fromisoformat s with
      | Some d => Ok d
      | None => Raise ValueError
      end
  | _ => Raise TypeError
  end.

(** [ServiceInfo(service_id=data['service'], ...)]: the keyword
    arguments are evaluated in the order they are written. *)
Definition from_payload (data : pyval) : result ServiceInfo :=
  service <- py_subscript data "service" ;;
  port <- py_subscript data "port" ;;
  instance_id <- py_subscript data "instance_id" ;;
  pid <- py_subscript data "pid" ;;
  project_context <- py_subscript data "project_context" ;;
  verification_token <- py_subscript data "verification_token" ;;
  start_text <- py_subscript data "start_time" ;;
  start_time <- py_fromisoformat start_text ;;
  status <- py_subscript data "status" ;;
  Ok {| service_id := service;
        port := port;
        instance_id := instance_id;
        pid := pid;
        project_context := project_context;
        verification_token := verification_token;
        start_time := start_time;
        status := status |}.

(** [all(expected.get(key) == candidate.get(key) for key in ks)]:
    stops at the first key that differs. *)
Fixpoint all_keys_match (expected : list (string * pyval)) (candidate : pyval)
    (ks : list string) : result bool :=
  match ks with
  | [] => Ok true
  | key :: ks' =>
      v <- py_get candidate key ;;
      if py_eq (dict_get expected key) v
      then all_keys_match expected candidate ks'
      else Ok false
  end.

Definition context_matches (expected : pyval) (info : ServiceInfo)
    : result bool :=
  match expected with
  | PDict m => all_keys_match m (project_context info) (keys m)
  | _ => Raise AttributeError
  end.

(** The body of the [try] for one port.  [fetch port] is what
    [json.loads(urlopen(...).read().decode())] does for that port: the
    decoded body, or the exception raised on the way. *)
Definition check_port (fetch : Z -> result pyval)
    (expected_service_id project_context : pyval) (port : Z)
    : result (option ServiceInfo) :=
  data <- fetch port ;;
  service <- py_get data "service" ;;
  if py_eq service expected_service_id then
    status <- py_get data "status" ;;
    if py_eq status (PStr "healthy") then
      service_info <- from_payload data ;;
      matches <- context_matches project_context service_info ;;
      if matches then Ok (Some service_info) else Ok None
    else Ok None
  else Ok None.

(** [except (urllib.error.URLError, json.JSONDecodeError, KeyError)] *)
Definition caught (e : exn) : bool :=
  match e with
  | URLError | HTTPError | JSONDecodeError | KeyError => true
  | _ => false
  end.

(** The [for] loop of [discover_service] over the ports still to
    visit; returns the ports requested, in order, and the result. *)
Fixpoint scan (fetch : Z -> result pyval)
    (expected_service_id project_context : pyval) (ports : list Z)
    : list Z * result (option ServiceInfo) :=
  match ports with
  | [] => ([], Ok None)
  | p :: rest =>
      match check_port fetch expected_service_id project_context p with
      | Ok (Some service_info) => ([p], Ok (Some service_info))
      | Ok None =>
          let '(probed, r) := scan fetch expected_service_id project_context rest in
          (p :: probed, r)
      | Raise e =>
          if caught e then
            let '(probed, r) :=
              scan fetch expected_service_id project_context rest in
            (p :: probed, r)
          else ([p], Raise e)
      end
  end.

Definition discover_service (port_range : Z * Z) (fetch : Z -> result pyval)
    (expected_service_id project_context : pyval)
    : list Z * result (option ServiceInfo) :=
  scan fetch expected_service_id project_context
       (py_range (fst port_range) (snd port_range + 1)).

(** ** HealthMonitor *)

Record ServiceChangeEvent : Type := {
  event_type : string;
  old_service : ServiceInfo;
  new_service : option ServiceInfo
}.

(** An HTTP request made by the monitor: the health check of the
    tracked port, or one port of the recovery scan. *)
Inductive probe : Type :=
| Health (port : pyval)
| Scan (port : Z).

(** What the world does during one pass of the [while] loop:
    [stop_requested] is [is_monitoring] read as false at the loop test,
    [health] answers the health check, [scan_fetch] answers the requests
    of the recovery scan, and [on_change] is what the caller's callback
    does with an event during this pass: it returns, or raises.  One
    pass calls the callback at most twice, on events of different
    types. *)
Record cycle_env : Type := {
  stop_requested : bool;
  health : result pyval;
  scan_fetch : Z -> result pyval;
  on_change : ServiceChangeEvent -> result unit
}.

(** [port - 10], [port + 10] on a Python value. *)
Definition py_add_int (v : pyval) (k : Z) : result Z :=
  match v with
  | PInt z => Ok (z + k)
  | PBool b => Ok (Z.b2z b + k)
  | _ => Raise TypeError
  end.

(** [_handle_service_down]: the requests of the recovery scan, the
    event handed to the callback, and how the method ends: with what the
    callback does, or with the exception that left the scan. *)
Definition _handle_service_down (self : ServiceInfo)
    (fetch : Z -> result pyval)
    (callback : ServiceChangeEvent -> result unit)
    : list probe * list ServiceChangeEvent * result unit :=
  match (lo <- py_add_int (port self) (-10) ;;
         hi <- py_add_int (port self) 10 ;;
         Ok (lo, hi)) with
  | Raise e => ([], [], Raise e)
  | Ok port_range =>
      let '(probed, r) :=
        discover_service port_range fetch (service_id self)
                         (project_context self) in
      match r with
      | Raise e => (map Scan probed, [], Raise e)
      | Ok (Some new_service) =>
          let event := {| event_type := "recovery";
                          old_service := self;
                          new_service := Some new_service |} in
          (map Scan probed, [event], callback event)
      | Ok None =>
          let event := {| event_type := "disconnected";
                          old_service := self;
                          new_service := None |} in
          (map Scan probed, [event], callback event)
      end
  end.

(** The body of the [try] in [_monitor_loop]: [None] when the instance
    is unchanged, the record rebuilt from the payload otherwise. *)
Definition health_check (self : ServiceInfo) (response : result pyval)
    : result (option ServiceInfo) :=
  data <- response ;;
  observed_instance <- py_get data "instance_id" ;;
  changed <-
    (if py_ne observed_instance (instance_id self) then Ok true
     else observed_pid <- py_get data "pid" ;;
          Ok (py_ne observed_pid (pid self))) ;;
  if changed : bool then
    restarted <- from_payload data ;;
    Ok (Some restarted)
  else Ok None.

Inductive control : Type :=
| Sleep                                (* falls through to time.sleep(5) *)
| Return.

Record cycle_result : Type := {
  probes : list probe;
  events : list ServiceChangeEvent;
  next : result control
}.

(** The [except] clause of the loop and the fall through to
    [time.sleep(5)]: [_handle_service_down] runs outside any [try], so
    whatever it raises leaves the loop. *)
Definition service_down_cycle (self : ServiceInfo) (c : cycle_env)
    : cycle_result :=
  let '(scanned, delivered, r) :=
    _handle_service_down self (scan_fetch c) (on_change c) in
  {| probes := Health (port self) :: scanned;
     events := delivered;
     next := match r with
             | Ok _ => Ok Sleep
             | Raise e => Raise e
             end |}.

(** One pass of the loop body.  The events are listed in the order the
    callback receives them.  The call of the callback on a "restart"
    event is inside the [try]: when it raises an exception the [except]
    clause handles, the [return] is skipped and the pass goes on as if
    the health check had failed. *)
Definition monitor_cycle (self : ServiceInfo) (c : cycle_env) : cycle_result :=
  match health_check self (health c) with
  | Ok None =>
      {| probes := [Health (port self)]; events := []; next := Ok Sleep |}
  | Ok (Some restarted) =>
      let event := {| event_type := "restart";
                      old_service := self;
                      new_service := Some restarted |} in
      match on_change c event with
      | Ok _ =>
          {| probes := [Health (port self)];
             events := [event];
             next := Ok Return |}
      | Raise e =>
          if caught e then
            let down := service_down_cycle self c in
            {| probes := probes down;
               events := event :: events down;
               next := next down |}
          else
            {| probes := [Health (port self)];
               events := [event];
               next := Raise e |}
      end
  | Raise e =>
      if caught e then service_down_cycle self c
      else
        {| probes := [Health (port self)]; events := []; next := Raise e |}
  end.

(** How a run over finitely many cycles ends. *)
Inductive ending : Type :=
| Polling               (* every cycle consumed, the loop is still running *)
| Stopped               (* the loop test read is_monitoring as false *)
| Returned              (* the return after a restart event *)
| Died (e : exn).       (* an exception left the loop *)

Record run : Type := {
  requests : list probe;
  fired : list ServiceChangeEvent;
  ended : ending
}.

(** [_monitor_loop] for the tracked record [self], one [cycle_env] per
    pass of the loop. *)
Fixpoint _monitor_loop (self : ServiceInfo) (cycles : list cycle_env) : run :=
  match cycles with
  | [] => {| requests := []; fired := []; ended := Polling |}
  | c :: rest =>
      if stop_requested c then
        {| requests := []; fired := []; ended := Stopped |}
      else
        let r := monitor_cycle self c in
        match next r with
        | Ok Sleep =>
            let later := _monitor_loop self rest in
            {| requests := probes r ++ requests later;
               fired := events r ++ fired later;
               ended := ended later |}
        | Ok Return =>
            {| requests := probes r; fired := events r; ended := Returned |}
        | Raise e =>
            {| requests := probes r; fired := events r; ended := Died e |}
        end
  end.

(** ** Vocabulary of the statements *)

(** The four discriminator fields hold proper Python values. *)
Definition discriminators_ok (s : ServiceInfo) : bool :=
  unique_keys (service_id s) && unique_keys (instance_id s) &&
  unique_keys (pid s) && unique_keys (verification_token s).

(** The discriminator fields have the types the dataclass declares:
    [service_id: str], [instance_id: str], [pid: int],
    [verification_token: str]. *)
Definition typed_discriminators (s : ServiceInfo) : Prop :=
  (exists x, service_id s = PStr x) /\
  (exists x, instance_id s = PStr x) /\
  (exists x, pid s = PInt x) /\
  (exists x, verification_token s = PStr x).

(** Two records that agree on the four discriminator fields, whatever
    their other fields hold. *)
Definition same_discriminators (s t : ServiceInfo) : Prop :=
  service_id s = service_id t /\
  instance_id s = instance_id t /\
  pid s = pid t /\
  verification_token s = verification_token t.

(** A port number [bind] accepts, and whose probe succeeds or fails. *)
Definition free (bindable : Z -> bool) (p : Z) : Prop :=
  valid_port p = true /\ bindable p = true.

Definition taken (bindable : Z -> bool) (p : Z) : Prop :=
  valid_port p = true /\ bindable p = false.

(** [q] is the lowest bindable port of [lo..hi], all ports below it
    being taken. *)
Definition first_free (bindable : Z -> bool) (lo hi q : Z) : Prop :=
  lo <= q <= hi /\ free bindable q /\
  forall r, lo <= r < q -> taken bindable r.

(** [q] is the lowest number of [lo..hi] that is no port number, all
    ports below it being taken. *)
Definition first_invalid (bindable : Z -> bool) (lo hi q : Z) : Prop :=
  lo <= q <= hi /\ valid_port q = false /\
  forall r, lo <= r < q -> taken bindable r.

(** Every port of [lo..hi] is taken. *)
Definition all_taken (bindable : Z -> bool) (lo hi : Z) : Prop :=
  forall r, lo <= r <= hi -> taken bindable r.

(** The preferred port does not decide: there is none, it is 0, or it is
    a port that cannot be bound; [start] goes on to scan the range. *)
Definition preferred_passed (bindable : Z -> bool) (preferred_port : option Z)
    : bool :=
  match preferred_port with
  | Some p => negb (truthy_int (Some p)) || (valid_port p && negb (bindable p))
  | None => true
  end.

(** The probe [start] spends on the preferred port before it scans. *)
Definition preferred_probe (preferred_port : option Z) : list Z :=
  match preferred_port with
  | Some p => if truthy_int (Some p) then [p] else []
  | None => []
  end.

(** The specification's reading of the preferred port, at one call: a
    port that is supplied and bindable is the port of the record, and
    nothing else is probed. *)
Definition preferred_returned_when_bindable (self : ServiceRegistry)
    (env : host_env) (p : Z) : Prop :=
  bindable env p = true ->
  fst (start self env (Some p)) = [p] /\
  exists info, returned (snd (start self env (Some p))) = Ok info /\
               port info = PInt p.

(** The specification's reading of the failure, at one call:
    [NoAvailablePortError] is raised iff every port of the range is
    taken. *)
Definition raises_iff_all_taken (self : ServiceRegistry) (env : host_env)
    (preferred_port : option Z) : Prop :=
  returned (snd (start self env preferred_port)) = Raise NoAvailablePortError <->
  all_taken (bindable env) (fst (reg_port_range self)) (snd (reg_port_range self)).

(** The specification's reading of the context check: every key of the
    expected subset is present in the record's context with an equal
    value. *)
Definition context_has_keys (expected : list (string * pyval))
    (info : ServiceInfo) : Prop :=
  forall key v, lookup key expected = Some v ->
    exists candidate w,
      project_context info = PDict candidate /\
      lookup key candidate = Some w /\ py_eq v w = true.

(** What the code checks: [expected.get(key) == candidate.get(key)],
    where a key the candidate lacks reads as [None]. *)
Definition context_gets_agree (expected : list (string * pyval))
    (info : ServiceInfo) : Prop :=
  forall key v, lookup key expected = Some v ->
    exists candidate,
      project_context info = PDict candidate /\
      py_eq v (dict_get candidate key) = true.

(** A port the scan passes over: the candidate is rejected or the
    exception is one of the three the loop handles. *)
Definition skipped (fetch : Z -> result pyval)
    (expected_service_id expected : pyval) (p : Z) : Prop :=
  check_port fetch expected_service_id expected p = Ok None \/
  exists e, check_port fetch expected_service_id expected p = Raise e /\
            caught e = true.

(** The event types of the specification and those of the code. *)
Definition spec_event_types : list string :=
  ["restarted"; "recovered"; "disconnected"].

Definition event_types : list string :=
  ["restart"; "recovery"; "disconnected"].

(** The event [_monitor_loop] hands to [on_change] on a restart. *)
Definition restart_event (old new : ServiceInfo) : ServiceChangeEvent :=
  {| event_type := "restart"; old_service := old; new_service := Some new |}.

(** An event as the callback may receive it for the tracked record
    [self]: one of the three types, the tracked record as
    [old_service], and a [new_service] except on "disconnected". *)
Definition event_ok (self : ServiceInfo) (e : ServiceChangeEvent) : Prop :=
  In (event_type e) event_types /\
  old_service e = self /\
  (new_service e = None <-> event_type e = "disconnected").

(** The same registry with no mDNS name configured. *)
Definition without_mdns (self : ServiceRegistry) : ServiceRegistry :=
  {| reg_service_id := reg_service_id self;
     reg_port_range := reg_port_range self;
     reg_project_context := reg_project_context self;
     mdns_name := None;
     service_info := service_info self;
     _zeroconf := _zeroconf self;
     _service_info := _service_info self |}.

(** The calls [_register_mdns] makes to the announcement mechanism, in
    order: the first exception among them, if any. *)
Definition announce (z : mdns_env) : result unit :=
  _ <- import_zeroconf z ;;
  _ <- new_zeroconf z ;;
  _ <- local_ip z ;;
  _ <- make_info z ;;
  register_service z.

(** The record [start] builds once it has chosen the port [p]. *)
Definition started_record (self : ServiceRegistry) (env : host_env) (p : Z)
    : ServiceInfo :=
  {| service_id := PStr (reg_service_id self);
     port := PInt p;
     instance_id := PStr (uuid4_first env);
     pid := PInt (getpid env);
     project_context := PDict (reg_project_context self);
     verification_token := PStr (uuid4_second env);
     start_time := now env;
     status := PStr "healthy" |}.

(** What [start] returns once the port is chosen and the record [info]
    built: the record, unless the announcement raises something other
    than [ImportError]. *)
Definition start_outcome (self : ServiceRegistry) (z : mdns_env)
    (info : ServiceInfo) : result ServiceInfo :=
  if truthy_str (mdns_name self) then
    match announce z with
    | Ok _ => Ok info
    | Raise ImportError => Ok info
    | Raise e => Raise e
    end
  else Ok info.

(** The calls [stop] makes when an announcement is registered. *)
Definition withdraw (z : mdns_env) : result unit :=
  _ <- unregister_service z ;; close_zeroconf z.

(** The specification's reading of [stop]: it returns normally. *)
Definition stop_never_raises (self : ServiceRegistry) (z : mdns_env) : Prop :=
  returned (stop self z) = Ok tt.

(** The specification's reading of registration failures: [start]
    returns the record it returns without announcement. *)
Definition start_ignores_announcement (self : ServiceRegistry)
    (env : host_env) (preferred_port : option Z) : Prop :=
  returned (snd (start self env preferred_port)) =
  returned (snd (start (without_mdns self) env preferred_port)).

(** ** The rest of the module *)

(** [quick_start]: a registry that is built, started with no preferred
    port and dropped; the caller gets what [start] returns. *)
Definition quick_start (service_id : string) (port_range : Z * Z)
    (project_context : option (list (string * pyval)))
    (mdns_name : option string) (env : host_env)
    : list Z * effect ServiceInfo :=
  let registry := init service_id port_range project_context mdns_name in
  start registry env None.

(** The [HealthMonitor] object: the tracked record, the flag the loop
    tests and the thread last created. *)
Inductive Thread : Type := MonitorThread.

Record HealthMonitor : Type := {
  monitored : ServiceInfo;             (* self.service_info *)
  is_monitoring : bool;
  monitor_thread : option Thread
}.

(** [HealthMonitor.__init__] *)
Definition new_monitor (service_info : ServiceInfo) : HealthMonitor :=
  {| monitored := service_info; is_monitoring := false; monitor_thread := None |}.

(** [start_monitoring]: the monitor afterwards, and whether a thread
    was started. *)
Definition start_monitoring (self : HealthMonitor) : HealthMonitor * bool :=
  if is_monitoring self then (self, false)
  else ({| monitored := monitored self;
           is_monitoring := true;
           monitor_thread := Some MonitorThread |}, true).

(** [stop_monitoring]: the monitor afterwards, and whether a thread was
    joined. *)
Definition stop_monitoring (self : HealthMonitor) : HealthMonitor * bool :=
  ({| monitored := monitored self;
      is_monitoring := false;
      monitor_thread := monitor_thread self |},
   match monitor_thread self with
   | Some _ => true
   | None => false
   end).

(** What happens to a monitor object over time: the caller's calls,
    and the end of the thread's [_monitor_loop], which assigns none of
    the object's attributes. *)
Inductive call : Type :=
| StartMonitoring
| StopMonitoring
| LoopEnds.

(** The number of threads a sequence of calls starts. *)
Fixpoint threads_started (self : HealthMonitor) (calls : list call) : nat :=
  match calls with
  | [] => 0%nat
  | StartMonitoring :: rest =>
      let '(self', started) := start_monitoring self in
      ((if started then 1 else 0) + threads_started self' rest)%nat
  | StopMonitoring :: rest =>
      threads_started (fst (stop_monitoring self)) rest
  | LoopEnds :: rest => threads_started self rest
  end.

Definition is_stop (c : call) : bool :=
  match c with
  | StopMonitoring => true
  | _ => false
  end.

(** The entries [_register_mdns] writes before the project context. *)
Definition identity_properties (info : ServiceInfo)
    : list (string * prop_value) :=
  [("service_id", AsIs (service_id info));
   ("instance_id", AsIs (instance_id info));
   ("pid", StrOf (pid info));
   ("verification_token", AsIs (verification_token info))].

(** The first binding of [key] in a list of bindings of any kind. *)
Fixpoint assoc {V : Type} (key : string) (m : list (string * V)) : option V :=
  match m with
  | [] => None
  | (k, v) :: m' => if String.eqb key k then Some v else assoc key m'
  end.

(** The health requests among the requests of a run. *)
Definition is_health (p : probe) : bool :=
  match p with
  | Health _ => true
  | Scan _ => false
  end.

(** A cycle in which the tracked instance itself answers the health
    check. *)
Definition answers_as (self : ServiceInfo) (c : cycle_env) : Prop :=
  stop_requested c = false /\
  exists m, health c = Ok (PDict m) /\
    py_eq (dict_get m "instance_id") (instance_id self) = true /\
    py_eq (dict_get m "pid") (pid self) = true.

(** The keys [ServiceInfo(...)] reads from a payload before it parses
    the start time, and all the keys the scanner reads. *)
Definition record_keys : list string :=
  ["service"; "port"; "instance_id"; "pid"; "project_context";
   "verification_token"; "start_time"].

Definition payload_keys : list string := "status" :: record_keys.

(** The requests [_handle_service_down] makes and the event it builds,
    before the callback is called. *)
Definition service_down_event (self : ServiceInfo)
    (fetch : Z -> result pyval) : list probe * result ServiceChangeEvent :=
  match (lo <- py_add_int (port self) (-10) ;;
         hi <- py_add_int (port self) 10 ;;
         Ok (lo, hi)) with
  | Raise e => ([], Raise e)
  | Ok port_range =>
      let '(probed, r) :=
        discover_service port_range fetch (service_id self)
                         (project_context self) in
      (map Scan probed,
       match r with
       | Raise e => Raise e
       | Ok (Some new_service) =>
           Ok {| event_type := "recovery";
                 old_service := self;
                 new_service := Some new_service |}
       | Ok None =>
           Ok {| event_type := "disconnected";
                 old_service := self;
                 new_service := None |}
       end)
  end.

(** The callback returns normally from every "restart" event of the
    pass. *)
Definition restart_accepted (c : cycle_env) : Prop :=
  forall e, event_type e = "restart" -> on_change c e = Ok tt.

(** A payload that carries the eight fields of the record [new], its
    start time as the text [started]. *)
Definition payload_of (m : list (string * pyval)) (new : ServiceInfo)
    (started : string) : Prop :=
  lookup "service" m = Some (service_id new) /\
  lookup "port" m = Some (port new) /\
  lookup "instance_id" m = Some (instance_id new) /\
  lookup "pid" m = Some (pid new) /\
  lookup "project_context" m = Some (project_context new) /\
  lookup "verification_token" m = Some (verification_token new) /\
  lookup "start_time" m = Some (PStr started) /\
  fromisoformat started = Some (start_time new) /\
  lookup "status" m = Some (status new).

End WithDateTime.

Arguments returned {DT A} _.
Arguments after {DT A} _.
Arguments printed {DT A} _.

(** ** A datetime library to run the definitions with

    Naive timestamps in the layout [isoformat()] writes when there are no
    fractional seconds, [YYYY-MM-DDTHH:MM:SS].  Every string it reads is
    read by [datetime.fromisoformat]; it is used for the concrete runs
    below, the theorems hold for any library. *)

Module Basic.
Local Open Scope Z_scope.

Record timestamp : Type := {
  year : Z; month : Z; day : Z; hour : Z; minute : Z; second : Z
}.

Definition digit (c : ascii) : option Z :=
  let n := Z.of_nat (nat_of_ascii c) in
  if (48 <=? n) && (n <=? 57) then Some (n - 48) else None.

Fixpoint number (acc : Z) (cs : list ascii) : option Z :=
  match cs with
  | [] => Some acc
  | c :: cs' =>
      match digit c with
      | Some d => number (10 * acc + d) cs'
      | None => None
      end
  end.

Definition is_leap (y : Z) : bool :=
  (y mod 4 =? 0) && (negb (y mod 100 =? 0) || (y mod 400 =? 0)).

Definition days_in_month (y m : Z) : Z :=
  if m =? 2 then (if is_leap y then 29 else 28)
  else if (m =? 4) || (m =? 6) || (m =? 9) || (m =? 11) then 30
  else 31.

Definition valid (t : timestamp) : bool :=
  (1 <=? year t) && (year t <=? 9999) &&
  (1 <=? month t) && (month t <=? 12) &&
  (1 <=? day t) && (day t <=? days_in_month (year t) (month t)) &&
  (hour t <=? 23) && (minute t <=? 59) && (second t <=? 59).

Definition parse (s : string) : option timestamp :=
  match list_ascii_of_string s with
  | [y1; y2; y3; y4; d1; m1; m2; d2; a1; a2; sep; h1; h2; c1; i1; i2; c2; s1; s2] =>
      if Ascii.eqb d1 "-" && Ascii.eqb d2 "-" && Ascii.eqb sep "T"
         && Ascii.eqb c1 ":" && Ascii.eqb c2 ":" then
        match number 0 [y1; y2; y3; y4], number 0 [m1; m2], number 0 [a1; a2],
              number 0 [h1; h2], number 0 [i1; i2], number 0 [s1; s2] with
        | Some y, Some m, Some d, Some h, Some i, Some sec =>
            let t := {| year := y; month := m; day := d;
                        hour := h; minute := i; second := sec |} in
            if valid t then Some t else None
        | _, _, _, _, _, _ => None
        end
      else None
  | _ => None
  end.

Definition digit_char (d : Z) : ascii := ascii_of_nat (Z.to_nat (48 + d mod 10)).

Definition two (n : Z) : string :=
  String (digit_char (n / 10)) (String (digit_char n) EmptyString).

Definition four (n : Z) : string :=
  String (digit_char (n / 1000)) (String (digit_char (n / 100)) (two n)).

Definition render (t : timestamp) : string :=
  four (year t) ++ "-" ++ two (month t) ++ "-" ++ two (day t) ++ "T" ++
  two (hour t) ++ ":" ++ two (minute t) ++ ":" ++ two (second t).

Definition days_before_year (y : Z) : Z :=
  let p := y - 1 in p * 365 + p / 4 - p / 100 + p / 400.

Definition days_before_month (y m : Z) : Z :=
  fold_left (fun acc k => acc + days_in_month y k) (py_range 1 m) 0.

Definition ordinal (t : timestamp) : Z :=
  days_before_year (year t) + days_before_month (year t) (month t) + day t.

Definition seconds (t : timestamp) : Z :=
  ordinal t * 86400 + hour t * 3600 + minute t * 60 + second t.

#[export] Instance library : DateTime := {
  datetime := timestamp;
  fromisoformat := parse;
  isoformat := render;
  total_seconds := fun later earlier => PInt (seconds later - seconds earlier)
}.

End Basic.

(** ** Concrete runs

    A registry, a tracked record, health payloads and a few networks to
    run the definitions on, with the library of [Basic]. *)

Module Run.
Import Basic.
Local Open Scope Z_scope.

(** The body of a health response as [health_response] writes it
    ([uptime_seconds], a float, is left out). *)
Definition payload (service instance : string) (port pid : Z)
    (context : list (string * pyval)) (start : string) : pyval :=
  PDict [("service", PStr service);
         ("status", PStr "healthy");
         ("port", PInt port);
         ("instance_id", PStr instance);
         ("pid", PInt pid);
         ("verification_token", PStr ("token-of-" ++ instance));
         ("project_context", PDict context);
         ("mdns", PNone);
         ("start_time", PStr start)].

Definition noon : timestamp :=
  {| year := 2024; month := 3; day := 1; hour := 12; minute := 0; second := 0 |}.

Definition record (instance : string) (port pid : Z)
    (context : list (string * pyval)) : ServiceInfo :=
  {| service_id := PStr "backend-api";
     port := PInt port;
     instance_id := PStr instance;
     pid := PInt pid;
     project_context := PDict context;
     verification_token := PStr ("token-of-" ++ instance);
     start_time := noon;
     status := PStr "healthy" |}.

(** The record the monitor tracks. *)
Definition tracked : ServiceInfo :=
  record "instance-1" 7775 4242 [("version", PStr "1.0")].

(** Nothing listens anywhere. *)
Definition nobody : Z -> result pyval := fun _ => Raise URLError.

(** Only port [p] answers, with [body]. *)
Definition only (p : Z) (body : pyval) : Z -> result pyval :=
  fun q => if q =? p then Ok body else Raise URLError.

(** Ports [p1] and [p2] answer. *)
Definition both (p1 : Z) (body1 : pyval) (p2 : Z) (body2 : pyval)
    : Z -> result pyval :=
  fun q => if q =? p1 then Ok body1 else only p2 body2 q.

(** A payload that matches the tracked service but carries a
    [start_time] that is not a timestamp. *)
Definition bad_start_time (port : Z) : pyval :=
  payload "backend-api" "instance-2" port 5151 [("version", PStr "1.0")]
          "yesterday".

Definition good (instance : string) (port pid : Z) : pyval :=
  payload "backend-api" instance port pid [("version", PStr "1.0")]
          "2024-03-01T12:00:00".

(** Callbacks: one that returns from every event, and one that raises
    [e] when handed an event of type [kind]. *)
Definition listens : ServiceChangeEvent -> result unit := fun _ => Ok tt.

Definition fails_on (kind : string) (e : exn)
    : ServiceChangeEvent -> result unit :=
  fun event => if String.eqb (event_type event) kind then Raise e else Ok tt.

(** Cycles of the monitor. *)
Definition down : cycle_env :=
  {| stop_requested := false; health := Raise URLError; scan_fetch := nobody;
     on_change := listens |}.

Definition moved : cycle_env :=
  {| stop_requested := false; health := Raise URLError;
     scan_fetch := only 7778 (good "instance-2" 7778 5151);
     on_change := listens |}.

Definition same : cycle_env :=
  {| stop_requested := false; health := Ok (good "instance-1" 7775 4242);
     scan_fetch := nobody; on_change := listens |}.

Definition replaced : cycle_env :=
  {| stop_requested := false; health := Ok (good "instance-2" 7775 5151);
     scan_fetch := nobody; on_change := listens |}.

Definition replaced_bad_start_time : cycle_env :=
  {| stop_requested := false; health := Ok (bad_start_time 7775);
     scan_fetch := nobody; on_change := listens |}.

(** The instance was replaced, and the callback, told of the restart,
    tries to reach the new instance and fails with [URLError]. *)
Definition replaced_unreachable : cycle_env :=
  {| stop_requested := false; health := Ok (good "instance-2" 7775 5151);
     scan_fetch := nobody; on_change := fails_on "restart" URLError |}.

(** The service is down, and the callback fails with [KeyError] when
    told so. *)
Definition down_unheard : cycle_env :=
  {| stop_requested := false; health := Raise URLError; scan_fetch := nobody;
     on_change := fails_on "disconnected" KeyError |}.

(** A registry and hosts for [start] and [stop]. *)
Definition registry : ServiceRegistry :=
  init "backend-api" (7770, 7779) (Some [("version", PStr "1.0")]) None.

Definition announced : ServiceRegistry :=
  init "backend-api" (7770, 7779) None (Some "backend.local").

Definition zeroconf_works : mdns_env :=
  {| import_zeroconf := Ok tt;
     new_zeroconf := Ok ZeroconfHandle;
     local_ip := Ok "127.0.0.1";
     make_info := Ok tt;
     register_service := Ok tt;
     unregister_service := Ok tt;
     close_zeroconf := Ok tt |}.

Definition zeroconf_missing : mdns_env :=
  {| import_zeroconf := Raise ImportError;
     new_zeroconf := Ok ZeroconfHandle;
     local_ip := Ok "127.0.0.1";
     make_info := Ok tt;
     register_service := Ok tt;
     unregister_service := Ok tt;
     close_zeroconf := Ok tt |}.

Definition register_fails : mdns_env :=
  {| import_zeroconf := Ok tt;
     new_zeroconf := Ok ZeroconfHandle;
     local_ip := Ok "127.0.0.1";
     make_info := Ok tt;
     register_service := Raise OSError;
     unregister_service := Ok tt;
     close_zeroconf := Ok tt |}.

Definition unregister_fails : mdns_env :=
  {| import_zeroconf := Ok tt;
     new_zeroconf := Ok ZeroconfHandle;
     local_ip := Ok "127.0.0.1";
     make_info := Ok tt;
     register_service := Ok tt;
     unregister_service := Raise OSError;
     close_zeroconf := Ok tt |}.

Definition host (free : Z -> bool) (z : mdns_env) : host_env :=
  {| bindable := free;
     uuid4_first := "instance-1";
     uuid4_second := "token-of-instance-1";
     getpid := 4242;
     now := noon;
     zeroconf_env := z |}.

Definition all_free : Z -> bool := fun _ => true.

(** The bindings of a payload. *)
Definition bindings (v : pyval) : list (string * pyval) :=
  match v with
  | PDict m => m
  | _ => []
  end.

Definition disconnected_event : ServiceChangeEvent :=
  {| event_type := "disconnected"; old_service := tracked; new_service := None |}.

Definition recovery_event : ServiceChangeEvent :=
  {| event_type := "recovery"; old_service := tracked;
     new_service := Some (record "instance-2" 7778 5151 [("version", PStr "1.0")]) |}.

(** The health check fails and the recovery scan meets the payload with
    the unreadable [start_time] at port 7770. *)
Definition down_bad_start_time : cycle_env :=
  {| stop_requested := false; health := Raise URLError;
     scan_fetch := only 7770 (bad_start_time 7770); on_change := listens |}.

(** Every port is taken but 8080. *)
Definition only_8080 : Z -> bool := fun p => p =? 8080.

(** Ports 7770..7772 are taken, the others are free. *)
Definition from_7773 : Z -> bool := fun p => negb ((7770 <=? p) && (p <=? 7772)).

(** The registry after a successful announced start. *)
Definition registered : ServiceRegistry :=
  after (snd (start announced (host all_free zeroconf_works) None)).

End Run.

(** * Properties *)

(** ** Python values *)

Section PyvalInduction.
Variable P : pyval -> Prop.
Hypothesis HNone : P PNone.
Hypothesis HBool : forall b, P (PBool b).
Hypothesis HInt : forall z, P (PInt z).
Hypothesis HStr : forall s, P (PStr s).
Hypothesis HList : forall l, Forall P l -> P (PList l).
Hypothesis HDict : forall m, Forall (fun kv => P (snd kv)) m -> P (PDict m).

Fixpoint pyval_ind (v : pyval) : P v :=
  match v with
  | PNone => HNone
  | PBool b => HBool b
  | PInt z => HInt z
  | PStr s => HStr s
  | PList l =>
      HList l ((fix all (l : list pyval) : Forall P l :=
                  match l with
                  | [] => Forall_nil _
                  | x :: l' => Forall_cons _ (pyval_ind x) (all l')
                  end) l)
  | PDict m =>
      HDict m ((fix all (m : list (string * pyval))
                  : Forall (fun kv => P (snd kv)) m :=
                  match m with
                  | [] => Forall_nil _
                  | kv :: m' => Forall_cons _ (pyval_ind (snd kv)) (all m')
                  end) m)
  end.
End PyvalInduction.

Lemma distinct_NoDup (ks : list string) : distinct ks = true -> NoDup ks.
Proof.
  induction ks as [|k ks IH]; simpl; intros H; constructor.
  - apply andb_true_iff in H as [H _].
    apply negb_true_iff in H. intros Hin.
    assert (existsb (String.eqb k) ks = true) as E.
    { apply existsb_exists. exists k. split; [exact Hin | apply String.eqb_refl]. }
    congruence.
  - apply IH. apply andb_true_iff in H as [_ H]. exact H.
Qed.

Lemma lookup_In (k : string) (m : list (string * pyval)) (v : pyval) :
  lookup k m = Some v -> In (k, v) m.
Proof.
  induction m as [|[k' w] m IH]; simpl; [discriminate|].
  destruct (String.eqb_spec k k') as [->|Hne]; intros H.
  - injection H as ->. now left.
  - right. now apply IH.
Qed.

Lemma lookup_keys (k : string) (m : list (string * pyval)) :
  In k (keys m) -> exists v, lookup k m = Some v.
Proof.
  induction m as [|[k' w] m IH]; simpl; [contradiction|].
  destruct (String.eqb_spec k k') as [->|Hne]; intros H.
  - now exists w.
  - destruct H as [H|H]; [congruence | now apply IH].
Qed.

Lemma In_keys (k : string) (v : pyval) (m : list (string * pyval)) :
  In (k, v) m -> In k (keys m).
Proof. intros H. apply (in_map fst) in H. exact H. Qed.

Lemma lookup_NoDup (k : string) (v : pyval) (m : list (string * pyval)) :
  NoDup (keys m) -> In (k, v) m -> lookup k m = Some v.
Proof.
  induction m as [|[k' w] m IH]; simpl; [contradiction|].
  intros Hnd [H|H].
  - injection H as -> ->. now rewrite String.eqb_refl.
  - inversion Hnd as [|? ? Hnotin Hnd']; subst.
    destruct (String.eqb_spec k k') as [->|Hne].
    + exfalso. apply Hnotin. eapply In_keys; eassumption.
    + now apply IH.
Qed.

Lemma py_eq_refl (v : pyval) : unique_keys v = true -> py_eq v v = true.
Proof.
  induction v as [| b | z | s | l IH | m IH] using pyval_ind; simpl; intros U.
  - reflexivity.
  - apply Bool.eqb_reflx.
  - apply Z.eqb_refl.
  - apply String.eqb_refl.
  - induction l as [|x l IHl]; simpl in *; [reflexivity|].
    apply andb_true_iff in U as [Ux Ul].
    inversion IH as [|? ? Hx Hl]; subst.
    rewrite (Hx Ux). simpl. now apply IHl.
  - apply andb_true_iff in U as [Uk Uv].
    rewrite Nat.eqb_refl. simpl.
    apply distinct_NoDup in Uk.
    rewrite forallb_forall in Uv. rewrite Forall_forall in IH.
    apply forallb_forall. intros [k v] Hin. simpl.
    rewrite (lookup_NoDup k v m Uk Hin).
    apply (IH (k, v) Hin). apply (Uv (k, v) Hin).
Qed.

Lemma py_eq_sym_true (a : pyval) :
  unique_keys a = true ->
  forall b, unique_keys b = true -> py_eq a b = true -> py_eq b a = true.
Proof.
  induction a as [| x | x | x | l IH | m IH] using pyval_ind;
    intros Ua [| y | y | y | l' | n] Ub; simpl; try discriminate; try reflexivity.
  - intros H. apply Bool.eqb_prop in H. subst. apply Bool.eqb_reflx.
  - intros H. apply Z.eqb_eq in H. apply Z.eqb_eq. congruence.
  - intros H. apply Z.eqb_eq in H. apply Z.eqb_eq. congruence.
  - intros H. apply Z.eqb_eq in H. apply Z.eqb_eq. congruence.
  - intros H. apply String.eqb_eq in H. apply String.eqb_eq. congruence.
  - revert l' Ub. simpl in Ua.
    induction l as [|x l IHl]; intros [|y l'] Ub H; simpl in *;
      try discriminate; try reflexivity.
    apply andb_true_iff in Ua as [Ux Ul].
    apply andb_true_iff in Ub as [Uy Ul'].
    apply andb_true_iff in H as [Hxy Hl].
    inversion IH as [|? ? Hx Hrest]; subst.
    rewrite (Hx Ux y Uy Hxy). simpl. now apply IHl.
  - intros H. simpl in Ua, Ub.
    apply andb_true_iff in Ua as [Uk Uv].
    apply andb_true_iff in Ub as [Uk' Uv'].
    apply andb_true_iff in H as [Hlen Hall].
    apply Nat.eqb_eq in Hlen.
    apply distinct_NoDup in Uk. apply distinct_NoDup in Uk'.
    rewrite forallb_forall in Uv, Uv', Hall. rewrite Forall_forall in IH.
    apply andb_true_iff. split; [apply Nat.eqb_eq; congruence|].
    assert (incl (keys m) (keys n)) as Hsub.
    { intros k Hk. apply in_map_iff in Hk as [[k0 v] [Ek Hin]]. simpl in Ek. subst k0.
      specialize (Hall (k, v) Hin). simpl in Hall.
      destruct (lookup k n) as [w|] eqn:E; [|discriminate].
      eapply In_keys. eapply lookup_In. exact E. }
    assert (incl (keys n) (keys m)) as Hsup.
    { apply NoDup_length_incl; [exact Uk | | exact Hsub].
      unfold keys. rewrite !length_map. lia. }
    apply forallb_forall. intros [k w] Hin. simpl.
    assert (In k (keys m)) as Hk by (apply Hsup; eapply In_keys; exact Hin).
    destruct (lookup_keys k m Hk) as [v Ev]. rewrite Ev.
    pose proof (lookup_In k m v Ev) as Hinm.
    specialize (Hall (k, v) Hinm). simpl in Hall.
    rewrite (lookup_NoDup k w n Uk' Hin) in Hall.
    apply (IH (k, v) Hinm (Uv (k, v) Hinm) w (Uv' (k, w) Hin) Hall).
Qed.

Lemma py_eq_sym (a b : pyval) :
  unique_keys a = true -> unique_keys b = true -> py_eq a b = py_eq b a.
Proof.
  intros Ua Ub.
  destruct (py_eq a b) eqn:E1, (py_eq b a) eqn:E2; try reflexivity.
  - rewrite (py_eq_sym_true a Ua b Ub E1) in E2. discriminate.
  - rewrite (py_eq_sym_true b Ub a Ua E2) in E1. discriminate.
Qed.

Lemma py_eq_str (v : pyval) (s : string) :
  py_eq v (PStr s) = true <-> v = PStr s.
Proof.
  destruct v; simpl; split; intros H; try discriminate.
  - apply String.eqb_eq in H. congruence.
  - injection H as ->. apply String.eqb_refl.
Qed.

Lemma py_eq_none_r (v : pyval) : py_eq v PNone = true <-> v = PNone.
Proof. destruct v; simpl; split; intros H; try discriminate; reflexivity. Qed.

Section Properties.
Context {DT : DateTime}.

(** ** ServiceVerifier *)

Lemma verify_service_identity_true (a b : ServiceInfo) :
  verify_service_identity a b = true <->
  py_eq (service_id a) (service_id b) = true /\
  py_eq (instance_id a) (instance_id b) = true /\
  py_eq (pid a) (pid b) = true /\
  py_eq (verification_token a) (verification_token b) = true.
Proof.
  unfold verify_service_identity. simpl.
  rewrite !andb_true_iff. tauto.
Qed.

(** C5.  [verify_service_identity a b] is true exactly when the
    service ids, instance ids, process ids and verification tokens are
    pairwise equal under Python's [==]; on records typed as the
    dataclass declares this is plain equality of the four fields.  It is
    reflexive and symmetric, one differing discriminator makes it false,
    and it reads no other field: replacing [port], [project_context],
    [start_time] or [status] on either side leaves the result
    unchanged. *)
Theorem verify_service_identity_spec (a b : ServiceInfo) :
  discriminators_ok a = true -> discriminators_ok b = true ->
  (verify_service_identity a b = true <->
     py_eq (service_id a) (service_id b) = true /\
     py_eq (instance_id a) (instance_id b) = true /\
     py_eq (pid a) (pid b) = true /\
     py_eq (verification_token a) (verification_token b) = true) /\
  (typed_discriminators a -> typed_discriminators b ->
     (verify_service_identity a b = true <-> same_discriminators a b)) /\
  verify_service_identity a a = true /\
  verify_service_identity a b = verify_service_identity b a /\
  (py_eq (service_id a) (service_id b) = false \/
   py_eq (instance_id a) (instance_id b) = false \/
   py_eq (pid a) (pid b) = false \/
   py_eq (verification_token a) (verification_token b) = false ->
     verify_service_identity a b = false) /\
  (forall a' b', same_discriminators a' a -> same_discriminators b' b ->
     verify_service_identity a' b' = verify_service_identity a b).
Proof.
  intros Ha Hb.
  unfold discriminators_ok in Ha, Hb.
  apply andb_true_iff in Ha as [Ha Ha4]. apply andb_true_iff in Ha as [Ha Ha3].
  apply andb_true_iff in Ha as [Ha1 Ha2].
  apply andb_true_iff in Hb as [Hb Hb4]. apply andb_true_iff in Hb as [Hb Hb3].
  apply andb_true_iff in Hb as [Hb1 Hb2].
  split; [apply verify_service_identity_true|].
  split.
  { intros ([x1 E1] & [x2 E2] & [x3 E3] & [x4 E4])
           ([y1 F1] & [y2 F2] & [y3 F3] & [y4 F4]).
    rewrite verify_service_identity_true. unfold same_discriminators.
    rewrite E1, E2, E3, E4, F1, F2, F3, F4. simpl.
    rewrite !String.eqb_eq, Z.eqb_eq.
    split; intros (H1 & H2 & H3 & H4).
    - now subst.
    - injection H1 as ->. injection H2 as ->. injection H3 as ->.
      injection H4 as ->. auto. }
  split.
  { apply verify_service_identity_true. auto using py_eq_refl. }
  split.
  { unfold verify_service_identity. simpl.
    now rewrite (py_eq_sym _ _ Ha1 Hb1), (py_eq_sym _ _ Ha2 Hb2),
                (py_eq_sym _ _ Ha3 Hb3), (py_eq_sym _ _ Ha4 Hb4). }
  split.
  { intros H. unfold verify_service_identity. simpl.
    destruct H as [H|[H|[H|H]]]; rewrite H; simpl;
      rewrite ?andb_false_r; reflexivity. }
  intros a' b' (A1 & A2 & A3 & A4) (B1 & B2 & B3 & B4).
  unfold verify_service_identity. simpl.
  now rewrite A1, A2, A3, A4, B1, B2, B3, B4.
Qed.

(** ** Port allocation *)

Lemma py_range_nil (lo hi : Z) : hi <= lo -> py_range lo hi = [].
Proof.
  intros H. unfold py_range.
  replace (Z.to_nat (hi - lo)) with 0%nat by lia. reflexivity.
Qed.

Lemma py_range_cons (lo hi : Z) :
  lo < hi -> py_range lo hi = lo :: py_range (lo + 1) hi.
Proof.
  intros H. unfold py_range.
  replace (Z.to_nat (hi - lo)) with (S (Z.to_nat (hi - (lo + 1)))) by lia.
  simpl. f_equal; [lia|].
  rewrite <- seq_shift, map_map.
  apply map_ext. intros i. lia.
Qed.

Lemma In_py_range (lo hi q : Z) : In q (py_range lo hi) <-> lo <= q < hi.
Proof.
  unfold py_range. rewrite in_map_iff. split.
  - intros [i [<- Hi]]. apply in_seq in Hi. lia.
  - intros H. exists (Z.to_nat (q - lo)). split; [lia|].
    apply in_seq. lia.
Qed.

Lemma first_available_cons (bindable : Z -> bool) (p : Z) (rest : list Z) :
  first_available bindable (p :: rest) =
    match _is_port_available bindable p with
    | Raise e => ([p], Raise e)
    | Ok true => ([p], Ok (Some p))
    | Ok false =>
        let '(probed, r) := first_available bindable rest in
        (p :: probed, r)
    end.
Proof. reflexivity. Qed.

Lemma valid_port_spec (p : Z) : valid_port p = true <-> 0 <= p <= 65535.
Proof.
  unfold valid_port. rewrite andb_true_iff, !Z.leb_le. tauto.
Qed.

Lemma is_port_available_free (bindable : Z -> bool) (p : Z) :
  free bindable p -> _is_port_available bindable p = Ok true.
Proof. intros [Hv Hb]. unfold _is_port_available. now rewrite Hv, Hb. Qed.

Lemma is_port_available_taken (bindable : Z -> bool) (p : Z) :
  taken bindable p -> _is_port_available bindable p = Ok false.
Proof. intros [Hv Hb]. unfold _is_port_available. now rewrite Hv, Hb. Qed.

Lemma is_port_available_invalid (bindable : Z -> bool) (p : Z) :
  valid_port p = false -> _is_port_available bindable p = Raise OverflowError.
Proof. intros Hv. unfold _is_port_available. now rewrite Hv. Qed.

Lemma port_cases (bindable : Z -> bool) (p : Z) :
  free bindable p \/ taken bindable p \/ valid_port p = false.
Proof.
  unfold free, taken. destruct (valid_port p), (bindable p); auto.
Qed.

(** The scan stops at the first port that is free, or that [bind]
    refuses as a number, when every port before it is taken. *)
Lemma first_available_decisive (bindable : Z -> bool) (n : nat) :
  forall lo hi q, Z.to_nat (hi - lo) = n ->
    lo <= q < hi ->
    (forall r, lo <= r < q -> taken bindable r) ->
    (free bindable q ->
       first_available bindable (py_range lo hi) =
         (py_range lo (q + 1), Ok (Some q))) /\
    (valid_port q = false ->
       first_available bindable (py_range lo hi) =
         (py_range lo (q + 1), Raise OverflowError)).
Proof.
  induction n as [|n IH]; intros lo hi q Hn Hq Hbelow; [lia|].
  rewrite (py_range_cons lo hi) by lia.
  rewrite (py_range_cons lo (q + 1)) by lia.
  rewrite first_available_cons.
  destruct (Z.eq_dec lo q) as [->|Hne].
  - rewrite (py_range_nil (q + 1) (q + 1)) by lia. split; intros H.
    + now rewrite (is_port_available_free _ _ H).
    + now rewrite (is_port_available_invalid _ _ H).
  - rewrite (is_port_available_taken bindable lo) by (apply Hbelow; lia).
    destruct (IH (lo + 1) hi q) as [IH1 IH2];
      [lia | lia | intros; apply Hbelow; lia |].
    split; intros H; [rewrite (IH1 H) | rewrite (IH2 H)]; reflexivity.
Qed.

Lemma first_available_taken (bindable : Z -> bool) (ports : list Z) :
  (forall r, In r ports -> taken bindable r) ->
  first_available bindable ports = (ports, Ok None).
Proof.
  induction ports as [|p ports IH]; intros H; [reflexivity|].
  rewrite first_available_cons.
  rewrite (is_port_available_taken bindable p) by (apply H; now left).
  rewrite IH; [reflexivity|]. intros r Hr. apply H. now right.
Qed.

(** A range has a first free port, or a first number that is no port,
    or all its ports are taken. *)
Lemma port_range_cases (bindable : Z -> bool) (lo hi : Z) :
  (exists q, first_free bindable lo hi q) \/
  (exists q, first_invalid bindable lo hi q) \/
  all_taken bindable lo hi.
Proof.
  remember (Z.to_nat (hi + 1 - lo)) as n eqn:Hn.
  revert lo Hn. induction n as [|n IH]; intros lo Hn.
  - right; right. intros r Hr. lia.
  - destruct (port_cases bindable lo) as [Hf|[Ht|Hi]].
    + left. exists lo. repeat split; try lia; try apply Hf.
    + assert (forall q, (forall r, lo + 1 <= r < q -> taken bindable r) ->
                forall r, lo <= r < q -> taken bindable r) as Hext.
      { intros q Hbelow r Hr. destruct (Z.eq_dec r lo) as [->|]; [assumption|].
        apply Hbelow. lia. }
      destruct (IH (lo + 1)) as [[q (Hq & Hb & Hbelow)]|[[q (Hq & Hb & Hbelow)]|Hall]];
        [lia| | |].
      * left. exists q. split; [lia|]. split; [assumption|]. now apply Hext.
      * right; left. exists q. split; [lia|]. split; [assumption|].
        now apply Hext.
      * right; right. intros r Hr.
        destruct (Z.eq_dec r lo) as [->|]; [assumption|]. apply Hall. lia.
    + right; left. exists lo. repeat split; try lia; assumption.
Qed.

Lemma find_available_port_free (self : ServiceRegistry) (bindable : Z -> bool) (q : Z) :
  first_free bindable (fst (reg_port_range self)) (snd (reg_port_range self)) q ->
  _find_available_port self bindable =
    (py_range (fst (reg_port_range self)) (q + 1), Ok q).
Proof.
  unfold _find_available_port. destruct (reg_port_range self) as [lo hi]. simpl.
  intros (Hq & Hb & Hbelow).
  destruct (first_available_decisive bindable _ lo (hi + 1) q eq_refl) as [-> _];
    try assumption; [lia | reflexivity].
Qed.

Lemma find_available_port_invalid (self : ServiceRegistry) (bindable : Z -> bool) (q : Z) :
  first_invalid bindable (fst (reg_port_range self)) (snd (reg_port_range self)) q ->
  _find_available_port self bindable =
    (py_range (fst (reg_port_range self)) (q + 1), Raise OverflowError).
Proof.
  unfold _find_available_port. destruct (reg_port_range self) as [lo hi]. simpl.
  intros (Hq & Hb & Hbelow).
  destruct (first_available_decisive bindable _ lo (hi + 1) q eq_refl) as [_ ->];
    try assumption; [lia | reflexivity].
Qed.

Lemma find_available_port_taken (self : ServiceRegistry) (bindable : Z -> bool) :
  all_taken bindable (fst (reg_port_range self)) (snd (reg_port_range self)) ->
  _find_available_port self bindable =
    (py_range (fst (reg_port_range self)) (snd (reg_port_range self) + 1),
     Raise NoAvailablePortError).
Proof.
  unfold _find_available_port. destruct (reg_port_range self) as [lo hi]. simpl.
  intros Hall. rewrite first_available_taken; [reflexivity|].
  intros r Hr. apply In_py_range in Hr. apply Hall. lia.
Qed.

Lemma find_available_port_raises (self : ServiceRegistry) (bindable : Z -> bool) :
  snd (_find_available_port self bindable) = Raise NoAvailablePortError <->
  all_taken bindable (fst (reg_port_range self)) (snd (reg_port_range self)).
Proof.
  split.
  - intros H.
    destruct (port_range_cases bindable (fst (reg_port_range self))
                (snd (reg_port_range self))) as [[q Hq]|[[q Hq]|Hall]];
      [| |assumption].
    + rewrite (find_available_port_free self bindable q Hq) in H. discriminate.
    + rewrite (find_available_port_invalid self bindable q Hq) in H.
      discriminate.
  - intros Hall. now rewrite find_available_port_taken.
Qed.

Lemma choose_port_free (self : ServiceRegistry) (bindable : Z -> bool) (p : Z) :
  p <> 0 -> free bindable p ->
  choose_port self bindable (Some p) = ([p], Ok p).
Proof.
  intros Hp Hf. unfold choose_port, truthy_int.
  rewrite (is_port_available_free _ _ Hf).
  destruct (Z.eqb_spec p 0); [contradiction|reflexivity].
Qed.

Lemma choose_port_invalid (self : ServiceRegistry) (bindable : Z -> bool) (p : Z) :
  p <> 0 -> valid_port p = false ->
  choose_port self bindable (Some p) = ([p], Raise OverflowError).
Proof.
  intros Hp Hi. unfold choose_port, truthy_int.
  rewrite (is_port_available_invalid _ _ Hi).
  destruct (Z.eqb_spec p 0); [contradiction|reflexivity].
Qed.

Lemma choose_port_scans (self : ServiceRegistry) (bindable : Z -> bool)
    (preferred_port : option Z) :
  preferred_passed bindable preferred_port = true ->
  choose_port self bindable preferred_port =
    ((preferred_probe preferred_port ++ fst (_find_available_port self bindable))%list,
     snd (_find_available_port self bindable)).
Proof.
  unfold preferred_passed, choose_port, preferred_probe.
  destruct preferred_port as [p|]; [|now destruct (_find_available_port _ _)].
  destruct (truthy_int (Some p)); simpl.
  - intros H. apply andb_true_iff in H as [Hv Hb]. apply negb_true_iff in Hb.
    rewrite (is_port_available_taken bindable p) by now split.
    now destruct (_find_available_port _ _).
  - intros _. now destruct (_find_available_port _ _).
Qed.

(** The preferred port is passed over, or it decides alone. *)
Lemma preferred_cases (bindable : Z -> bool) (preferred_port : option Z) :
  preferred_passed bindable preferred_port = true \/
  exists p, preferred_port = Some p /\ p <> 0 /\
            preferred_passed bindable preferred_port = false /\
            (free bindable p \/ valid_port p = false).
Proof.
  destruct preferred_port as [p|]; [|now left].
  unfold preferred_passed, truthy_int, free.
  destruct (Z.eqb_spec p 0) as [->|Hp]; [now left|]. simpl.
  destruct (valid_port p) eqn:Hv; simpl.
  - destruct (bindable p) eqn:Hb; simpl; [|now left].
    right. exists p. repeat split; auto.
  - right. exists p. repeat split; auto.
Qed.

Lemma register_body_announce (self : ServiceRegistry) (info : ServiceInfo)
    (z : mdns_env) :
  service_info self = Some info ->
  match register_body self z with
  | Ok _ => announce z = Ok tt
  | Raise e => announce z = Raise e
  end.
Proof.
  intros Hs. unfold register_body, announce. rewrite Hs.
  destruct (import_zeroconf z) as [[]|]; simpl; [|reflexivity].
  destruct (new_zeroconf z); simpl; [|reflexivity].
  destruct (local_ip z); simpl; [|reflexivity].
  destruct (make_info z) as [[]|]; simpl; [|reflexivity].
  destruct (register_service z) as [[]|]; simpl; reflexivity.
Qed.

Lemma start_uses_choose_port (self : ServiceRegistry) (env : host_env)
    (preferred_port : option Z) :
  fst (start self env preferred_port) =
    fst (choose_port self (bindable env) preferred_port) /\
  match snd (choose_port self (bindable env) preferred_port) with
  | Raise e =>
      returned (snd (start self env preferred_port)) = Raise e /\
      after (snd (start self env preferred_port)) = self
  | Ok p =>
      service_info (after (snd (start self env preferred_port)))
        = Some (started_record self env p) /\
      returned (snd (start self env preferred_port))
        = start_outcome self (zeroconf_env env) (started_record self env p)
  end.
Proof.
  unfold start, start_outcome.
  destruct (choose_port self (bindable env) preferred_port) as [probed [p|e]];
    simpl; [|auto].
  fold (started_record self env p).
  set (info := started_record self env p).
  destruct (truthy_str (mdns_name self)) eqn:Et.
  - unfold _register_mdns.
    pose proof (register_body_announce (set_service_info self info) info
                  (zeroconf_env env) eq_refl) as Hb.
    destruct (register_body _ _) as [[z m]|e]; simpl; rewrite Hb.
    + auto.
    + destruct e; simpl; auto.
  - simpl. auto.
Qed.

(** C6 (amended).  Port allocation in [start], the bind probe raising
    [OverflowError] for a number outside 0..65535.  A preferred port that
    is supplied, non-zero and free becomes the port of the record and no
    other port is probed; a preferred number that is non-zero and no port
    makes [start] raise [OverflowError].  Otherwise (no preferred port,
    port 0, or a preferred port that cannot be bound) the ports
    [min..max] are probed inclusively in ascending order up to the first
    one that is free, which becomes the port of the record, or up to the
    first number that is no port, where [start] raises [OverflowError].
    [NoAvailablePortError] is raised exactly when the preferred port is
    passed over and every port of the range is taken.  With a port
    chosen, [start] stores the record and returns it, unless an
    announcement is configured and fails with something other than
    [ImportError]. *)
Theorem start_port_allocation (self : ServiceRegistry) (env : host_env)
    (preferred_port : option Z) :
  let lo := fst (reg_port_range self) in
  let hi := snd (reg_port_range self) in
  let chosen := choose_port self (bindable env) preferred_port in
  let started := snd (start self env preferred_port) in
  (forall p, preferred_port = Some p -> p <> 0 -> free (bindable env) p ->
     chosen = ([p], Ok p)) /\
  (forall p, preferred_port = Some p -> p <> 0 -> valid_port p = false ->
     chosen = ([p], Raise OverflowError)) /\
  (preferred_passed (bindable env) preferred_port = true ->
     (forall q, first_free (bindable env) lo hi q ->
        chosen = ((preferred_probe preferred_port ++ py_range lo (q + 1))%list,
                  Ok q)) /\
     (forall q, first_invalid (bindable env) lo hi q ->
        chosen = ((preferred_probe preferred_port ++ py_range lo (q + 1))%list,
                  Raise OverflowError)) /\
     (all_taken (bindable env) lo hi ->
        chosen = ((preferred_probe preferred_port ++ py_range lo (hi + 1))%list,
                  Raise NoAvailablePortError)) /\
     ((exists q, first_free (bindable env) lo hi q) \/
      (exists q, first_invalid (bindable env) lo hi q) \/
      all_taken (bindable env) lo hi)) /\
  (preferred_passed (bindable env) preferred_port = true \/
   exists p, preferred_port = Some p /\ p <> 0 /\
             (free (bindable env) p \/ valid_port p = false)) /\
  (snd chosen = Raise NoAvailablePortError <->
     preferred_passed (bindable env) preferred_port = true /\
     all_taken (bindable env) lo hi) /\
  fst (start self env preferred_port) = fst chosen /\
  match snd chosen with
  | Raise e => returned started = Raise e /\ after started = self
  | Ok p =>
      let info := started_record self env p in
      port info = PInt p /\
      service_info (after started) = Some info /\
      returned started = start_outcome self (zeroconf_env env) info /\
      (truthy_str (mdns_name self) = false -> returned started = Ok info) /\
      (announce (zeroconf_env env) = Ok tt -> returned started = Ok info)
  end.
Proof.
  intros lo hi chosen started.
  split; [intros p -> Hp Hf; now apply choose_port_free|].
  split; [intros p -> Hp Hi; now apply choose_port_invalid|].
  split.
  { intros Hu. unfold chosen. rewrite (choose_port_scans _ _ _ Hu).
    split; [|split; [|split]].
    - intros q Hq. now rewrite (find_available_port_free self _ q Hq).
    - intros q Hq. now rewrite (find_available_port_invalid self _ q Hq).
    - intros Hall. now rewrite (find_available_port_taken self _ Hall).
    - apply port_range_cases. }
  split.
  { destruct (preferred_cases (bindable env) preferred_port)
      as [H|(p & Hp & Hz & _ & H)]; [now left|].
    right. exists p. auto. }
  split.
  { destruct (preferred_cases (bindable env) preferred_port)
      as [Hu|(p & -> & Hz & Hu & [Hf|Hi])].
    - unfold chosen. rewrite (choose_port_scans _ _ _ Hu). simpl.
      rewrite find_available_port_raises. tauto.
    - unfold chosen. rewrite (choose_port_free self _ p Hz Hf), Hu.
      split; [discriminate | intros [? _]; discriminate].
    - unfold chosen. rewrite (choose_port_invalid self _ p Hz Hi), Hu.
      split; [discriminate | intros [? _]; discriminate]. }
  destruct (start_uses_choose_port self env preferred_port) as [Hfst Hsnd].
  split; [exact Hfst|].
  fold chosen in Hsnd. fold started in Hsnd.
  destruct (snd chosen) as [p|e]; [|exact Hsnd].
  destruct Hsnd as (Hs & Hret). intros info.
  split; [reflexivity|]. split; [exact Hs|]. split; [exact Hret|].
  rewrite Hret. unfold start_outcome.
  split; [now intros ->|].
  intros ->. now destruct (truthy_str (mdns_name self)).
Qed.

(** ** ServiceDiscovery *)

Lemma bind_Ok {A B} (c : result A) (k : A -> result B) (b : B) :
  bind c k = Ok b -> exists a, c = Ok a /\ k a = Ok b.
Proof. destruct c as [a|e]; simpl; [eauto | discriminate]. Qed.

Lemma py_get_Ok (v : pyval) (key : string) (w : pyval) :
  py_get v key = Ok w -> exists m, v = PDict m /\ w = dict_get m key.
Proof. destruct v; simpl; try discriminate. intros [= <-]. eauto. Qed.

Lemma py_subscript_Ok (v : pyval) (key : string) (w : pyval) :
  py_subscript v key = Ok w -> exists m, v = PDict m /\ lookup key m = Some w.
Proof.
  destruct v; simpl; try discriminate.
  destruct (lookup key m) eqn:E; [|discriminate]. intros [= <-]. eauto.
Qed.

Lemma from_payload_Ok (data : pyval) (info : ServiceInfo) :
  from_payload data = Ok info ->
  exists m, data = PDict m /\
    lookup "service" m = Some (service_id info) /\
    lookup "port" m = Some (port info) /\
    lookup "instance_id" m = Some (instance_id info) /\
    lookup "pid" m = Some (pid info) /\
    lookup "project_context" m = Some (project_context info) /\
    lookup "verification_token" m = Some (verification_token info) /\
    (exists text, lookup "start_time" m = Some (PStr text) /\
                  fromisoformat text = Some (start_time info)) /\
    lookup "status" m = Some (status info).
Proof.
  unfold from_payload. intros H.
  apply bind_Ok in H as (v1 & E1 & H). apply bind_Ok in H as (v2 & E2 & H).
  apply bind_Ok in H as (v3 & E3 & H). apply bind_Ok in H as (v4 & E4 & H).
  apply bind_Ok in H as (v5 & E5 & H). apply bind_Ok in H as (v6 & E6 & H).
  apply bind_Ok in H as (v7 & E7 & H). apply bind_Ok in H as (t & Et & H).
  apply bind_Ok in H as (v8 & E8 & H). injection H as <-. simpl.
  apply py_subscript_Ok in E1 as (m & -> & E1).
  apply py_subscript_Ok in E2 as (? & [= <-] & E2).
  apply py_subscript_Ok in E3 as (? & [= <-] & E3).
  apply py_subscript_Ok in E4 as (? & [= <-] & E4).
  apply py_subscript_Ok in E5 as (? & [= <-] & E5).
  apply py_subscript_Ok in E6 as (? & [= <-] & E6).
  apply py_subscript_Ok in E7 as (? & [= <-] & E7).
  apply py_subscript_Ok in E8 as (? & [= <-] & E8).
  exists m. split; [reflexivity|].
  repeat (split; [assumption|]).
  split; [|assumption].
  unfold py_fromisoformat in Et. destruct v7 as [| | |text| |]; try discriminate.
  destruct (fromisoformat text) eqn:Ef; [|discriminate]. injection Et as ->.
  eauto.
Qed.

Lemma all_keys_match_true (expected : list (string * pyval))
    (candidate : pyval) (ks : list string) :
  all_keys_match expected candidate ks = Ok true ->
  forall key, In key ks ->
    exists c, candidate = PDict c /\
              py_eq (dict_get expected key) (dict_get c key) = true.
Proof.
  induction ks as [|k ks IH]; simpl; intros H key Hin; [contradiction|].
  apply bind_Ok in H as (v & Ev & H).
  apply py_get_Ok in Ev as (c & -> & ->).
  destruct (py_eq (dict_get expected k) (dict_get c k)) eqn:E; [|discriminate].
  destruct Hin as [<-|Hin]; [eauto | now apply IH].
Qed.

Lemma check_port_accepts (fetch : Z -> result pyval)
    (expected_service_id expected : pyval) (p : Z) (info : ServiceInfo) :
  check_port fetch expected_service_id expected p = Ok (Some info) ->
  exists m, fetch p = Ok (PDict m) /\
    py_eq (dict_get m "service") expected_service_id = true /\
    py_eq (dict_get m "status") (PStr "healthy") = true /\
    from_payload (PDict m) = Ok info /\
    context_matches expected info = Ok true.
Proof.
  unfold check_port. intros H.
  apply bind_Ok in H as (data & Ef & H). apply bind_Ok in H as (sv & Es & H).
  apply py_get_Ok in Es as (m & -> & ->).
  destruct (py_eq (dict_get m "service") expected_service_id) eqn:E1;
    [|discriminate].
  apply bind_Ok in H as (st & Est & H). simpl in Est. injection Est as <-.
  destruct (py_eq (dict_get m "status") (PStr "healthy")) eqn:E2; [|discriminate].
  apply bind_Ok in H as (i & Ei & H). apply bind_Ok in H as (ok & Eok & H).
  destruct ok; [|discriminate]. injection H as <-.
  exists m. auto.
Qed.

Lemma scan_found (fetch : Z -> result pyval)
    (expected_service_id expected : pyval) (ports probed : list Z)
    (info : ServiceInfo) :
  scan fetch expected_service_id expected ports = (probed, Ok (Some info)) ->
  exists p, In p ports /\
    check_port fetch expected_service_id expected p = Ok (Some info).
Proof.
  revert probed. induction ports as [|p ports IH]; simpl; intros probed H;
    [discriminate|].
  destruct (check_port fetch expected_service_id expected p) as [[i|]|e] eqn:E.
  - injection H as _ <-. eauto.
  - destruct (scan _ _ _ ports) as [pr r]. injection H as _ ->.
    destruct (IH _ eq_refl) as (q & Hq & Eq). eauto.
  - destruct (caught e); [|discriminate].
    destruct (scan _ _ _ ports) as [pr r]. injection H as _ ->.
    destruct (IH _ eq_refl) as (q & Hq & Eq). eauto.
Qed.

(** C8 (amended).  A record returned by [discover_service] has a
    service id equal to the expected one and status "healthy"; for
    every key of the expected context, the expected value equals what
    [.get(key)] reads in the record's context, where a key the context
    lacks reads as [None].  So every key whose expected value is not
    [None] is present in the returned context with an equal value. *)
Theorem discover_service_matches_expected (port_range : Z * Z)
    (fetch : Z -> result pyval) (expected_service_id project_context : pyval)
    (probed : list Z) (info : ServiceInfo) :
  discover_service port_range fetch expected_service_id project_context
    = (probed, Ok (Some info)) ->
  py_eq (service_id info) expected_service_id = true /\
  (forall s, expected_service_id = PStr s -> service_id info = PStr s) /\
  status info = PStr "healthy" /\
  exists expected,
    project_context = PDict expected /\
    context_gets_agree expected info /\
    forall key v, lookup key expected = Some v -> v <> PNone ->
      exists candidate w,
        Shuffle.project_context info = PDict candidate /\
        lookup key candidate = Some w /\ py_eq v w = true.
Proof.
  unfold discover_service. intros H.
  apply scan_found in H as (p & _ & H).
  apply check_port_accepts in H as (m & _ & Hs & Hst & Hp & Hc).
  apply from_payload_Ok in Hp as (m' & [= <-] & L1 & _ & _ & _ & _ & _ & _ & L8).
  unfold dict_get in Hs, Hst. rewrite L1 in Hs. rewrite L8 in Hst.
  split; [exact Hs|].
  split; [intros s ->; now apply py_eq_str|].
  split; [now apply py_eq_str|].
  unfold context_matches in Hc.
  destruct project_context as [| | | | |expected]; try discriminate.
  exists expected. split; [reflexivity|].
  assert (context_gets_agree expected info) as Hagree.
  { intros key v Hk.
    destruct (all_keys_match_true _ _ _ Hc key) as (c & Ec & Eq).
    - eapply In_keys. eapply lookup_In. exact Hk.
    - exists c. split; [exact Ec|]. unfold dict_get at 1 in Eq.
      now rewrite Hk in Eq. }
  split; [exact Hagree|].
  intros key v Hk Hv. destruct (Hagree key v Hk) as (c & Ec & Eq).
  exists c. unfold dict_get in Eq.
  destruct (lookup key c) as [w|] eqn:El.
  - exists w. auto.
  - apply py_eq_none_r in Eq. contradiction.
Qed.

Lemma scan_first_decisive (fetch : Z -> result pyval)
    (expected_service_id expected : pyval) (n : nat) :
  forall lo hi q, Z.to_nat (hi - lo) = n -> lo <= q < hi ->
    (forall r, lo <= r < q -> skipped fetch expected_service_id expected r) ->
    (forall info,
       check_port fetch expected_service_id expected q = Ok (Some info) ->
       scan fetch expected_service_id expected (py_range lo hi)
         = (py_range lo (q + 1), Ok (Some info))) /\
    (forall e,
       check_port fetch expected_service_id expected q = Raise e ->
       caught e = false ->
       scan fetch expected_service_id expected (py_range lo hi)
         = (py_range lo (q + 1), Raise e)).
Proof.
  induction n as [|n IH]; intros lo hi q Hn Hq Hskip; [lia|].
  rewrite (py_range_cons lo hi) by lia.
  rewrite (py_range_cons lo (q + 1)) by lia.
  destruct (Z.eq_dec lo q) as [->|Hne].
  - rewrite (py_range_nil (q + 1) (q + 1)) by lia.
    split; [intros info E | intros e E Hc]; simpl; rewrite E;
      [reflexivity | now rewrite Hc].
  - assert (forall r, lo + 1 <= r < q ->
              skipped fetch expected_service_id expected r) as Hskip'
      by (intros; apply Hskip; lia).
    destruct (IH (lo + 1) hi q ltac:(lia) ltac:(lia) Hskip') as [IH1 IH2].
    split; [intros info E | intros e E Hc]; simpl;
      (destruct (Hskip lo ltac:(lia)) as [E0|(e0 & E0 & Hc0)]; rewrite E0;
       [|rewrite Hc0]);
      first [now rewrite (IH1 _ E) | now rewrite (IH2 _ E Hc)].
Qed.

(** Ports are requested in ascending order and the scan stops at the
    first accepted candidate. *)
Lemma discover_service_first_match (port_range : Z * Z)
    (fetch : Z -> result pyval) (expected_service_id expected : pyval)
    (q : Z) (info : ServiceInfo) :
  fst port_range <= q <= snd port_range ->
  (forall r, fst port_range <= r < q ->
     skipped fetch expected_service_id expected r) ->
  check_port fetch expected_service_id expected q = Ok (Some info) ->
  discover_service port_range fetch expected_service_id expected
    = (py_range (fst port_range) (q + 1), Ok (Some info)).
Proof.
  intros Hq Hskip E. unfold discover_service.
  apply (scan_first_decisive fetch _ _ _ _ _ q eq_refl); [lia | exact Hskip | exact E].
Qed.

(** With every port passed over, the result is [None]. *)
Lemma discover_service_not_found (port_range : Z * Z)
    (fetch : Z -> result pyval) (expected_service_id expected : pyval) :
  (forall r, fst port_range <= r <= snd port_range ->
     skipped fetch expected_service_id expected r) ->
  discover_service port_range fetch expected_service_id expected
    = (py_range (fst port_range) (snd port_range + 1), Ok None).
Proof.
  unfold discover_service. intros Hskip.
  assert (forall r, In r (py_range (fst port_range) (snd port_range + 1)) ->
            skipped fetch expected_service_id expected r) as H.
  { intros r Hr. apply In_py_range in Hr. apply Hskip. lia. }
  induction (py_range (fst port_range) (snd port_range + 1)) as [|p ports IH];
    simpl; [reflexivity|].
  rewrite IH by (intros; apply H; now right).
  destruct (H p ltac:(now left)) as [E|(e & E & Hc)]; rewrite E;
    [|rewrite Hc]; reflexivity.
Qed.

(** An exception the loop does not handle ends the scan at its port. *)
Lemma discover_service_raises (port_range : Z * Z)
    (fetch : Z -> result pyval) (expected_service_id expected : pyval)
    (q : Z) (e : exn) :
  fst port_range <= q <= snd port_range ->
  (forall r, fst port_range <= r < q ->
     skipped fetch expected_service_id expected r) ->
  check_port fetch expected_service_id expected q = Raise e ->
  caught e = false ->
  discover_service port_range fetch expected_service_id expected
    = (py_range (fst port_range) (q + 1), Raise e).
Proof.
  intros Hq Hskip E Hc. unfold discover_service.
  apply (scan_first_decisive fetch _ _ _ _ _ q eq_refl); [lia | exact Hskip | exact E | exact Hc].
Qed.

(** ** HealthMonitor *)

Lemma handle_service_down_eq (self : ServiceInfo)
    (fetch : Z -> result pyval)
    (callback : ServiceChangeEvent -> result unit) :
  _handle_service_down self fetch callback =
    match service_down_event self fetch with
    | (scanned, Ok e) => (scanned, [e], callback e)
    | (scanned, Raise x) => (scanned, [], Raise x)
    end.
Proof.
  unfold _handle_service_down, service_down_event.
  destruct (bind _ _) as [range|]; [|reflexivity].
  destruct (discover_service _ _ _ _) as [probed [[new|]|x]]; reflexivity.
Qed.

Lemma service_down_cycle_eq (self : ServiceInfo) (c : cycle_env) :
  service_down_cycle self c =
    match service_down_event self (scan_fetch c) with
    | (scanned, Ok e) =>
        {| probes := Health (port self) :: scanned;
           events := [e];
           next := match on_change c e with
                   | Ok _ => Ok Sleep
                   | Raise x => Raise x
                   end |}
    | (scanned, Raise x) =>
        {| probes := Health (port self) :: scanned;
           events := [];
           next := Raise x |}
    end.
Proof.
  unfold service_down_cycle. rewrite handle_service_down_eq.
  destruct (service_down_event self (scan_fetch c)) as [scanned [e|x]];
    reflexivity.
Qed.

Lemma service_down_event_ok (self : ServiceInfo)
    (fetch : Z -> result pyval) (scanned : list probe)
    (e : ServiceChangeEvent) :
  service_down_event self fetch = (scanned, Ok e) ->
  event_ok self e /\ event_type e <> "restart".
Proof.
  unfold service_down_event.
  destruct (bind _ _) as [range|]; [|discriminate].
  destruct (discover_service _ _ _ _) as [probed [[new|]|x]];
    intros [= _ <-]; unfold event_ok, event_types; simpl;
    (split; [|discriminate]);
    (split; [tauto|]); (split; [reflexivity|]);
    split; intros H; first [discriminate | reflexivity].
Qed.

Lemma service_down_cycle_events (self : ServiceInfo) (c : cycle_env) :
  Forall (event_ok self) (events (service_down_cycle self c)) /\
  Forall (fun e => event_type e <> "restart")
         (events (service_down_cycle self c)) /\
  (List.length (events (service_down_cycle self c)) <= 1)%nat.
Proof.
  rewrite service_down_cycle_eq.
  destruct (service_down_event self (scan_fetch c)) as [scanned [e|x]] eqn:E;
    simpl; [|split; [constructor | split; [constructor | lia]]].
  destruct (service_down_event_ok _ _ _ _ E) as [Hok Hne].
  split; [|split; [|lia]]; (constructor; [assumption | constructor]).
Qed.

Lemma restart_event_ok (self new : ServiceInfo) :
  event_ok self (restart_event self new).
Proof.
  unfold event_ok, event_types. simpl.
  split; [tauto|]. split; [reflexivity|]. split; discriminate.
Qed.

(** The ways one pass of the loop can go. *)
Lemma monitor_cycle_cases (self : ServiceInfo) (c : cycle_env) :
  monitor_cycle self c =
    {| probes := [Health (port self)]; events := []; next := Ok Sleep |} \/
  (exists x, caught x = false /\
     monitor_cycle self c =
       {| probes := [Health (port self)]; events := []; next := Raise x |}) \/
  monitor_cycle self c = service_down_cycle self c \/
  (exists new,
     on_change c (restart_event self new) = Ok tt /\
     monitor_cycle self c =
       {| probes := [Health (port self)];
          events := [restart_event self new];
          next := Ok Return |}) \/
  (exists new x,
     on_change c (restart_event self new) = Raise x /\ caught x = false /\
     monitor_cycle self c =
       {| probes := [Health (port self)];
          events := [restart_event self new];
          next := Raise x |}) \/
  (exists new x,
     on_change c (restart_event self new) = Raise x /\ caught x = true /\
     monitor_cycle self c =
       {| probes := probes (service_down_cycle self c);
          events := restart_event self new :: events (service_down_cycle self c);
          next := next (service_down_cycle self c) |}).
Proof.
  unfold monitor_cycle.
  destruct (health_check self (health c)) as [[new|]|x]; [|now left|].
  - fold (restart_event self new).
    destruct (on_change c (restart_event self new)) as [[]|x] eqn:Ec.
    + right; right; right; left. exists new. auto.
    + destruct (caught x) eqn:Hc.
      * right; right; right; right; right. exists new, x. auto.
      * right; right; right; right; left. exists new, x. auto.
  - destruct (caught x) eqn:Hc; [now right; right; left|].
    right; left. exists x. auto.
Qed.

Lemma monitor_cycle_events (self : ServiceInfo) (c : cycle_env) :
  Forall (event_ok self) (events (monitor_cycle self c)) /\
  (List.length (events (monitor_cycle self c)) <= 2)%nat /\
  (restart_accepted c ->
   (List.length (events (monitor_cycle self c)) <= 1)%nat).
Proof.
  destruct (service_down_cycle_events self c) as (Hok & _ & Hlen).
  destruct (monitor_cycle_cases self c)
    as [->|[(x & _ & ->)|[->|[(new & _ & ->)|[(new & x & _ & _ & ->)
                                             |(new & x & Ec & _ & ->)]]]]];
    simpl.
  - repeat split; try constructor; lia.
  - repeat split; try constructor; lia.
  - repeat split; try assumption; lia.
  - repeat split; try lia. constructor; [apply restart_event_ok | constructor].
  - repeat split; try lia. constructor; [apply restart_event_ok | constructor].
  - split; [constructor; [apply restart_event_ok | assumption]|].
    split; [lia|]. intros Ha. rewrite (Ha (restart_event self new) eq_refl) in Ec.
    discriminate Ec.
Qed.

(** C2 (amended).  Every event handed to the callback has an
    [event_type] that is one of exactly "restart", "recovery" and
    "disconnected"; its [old_service] is the tracked record, and its
    [new_service] is a record, or [None] exactly on "disconnected". *)
Theorem monitor_loop_events (self : ServiceInfo) (cycles : list cycle_env) :
  Forall (event_ok self) (fired (_monitor_loop self cycles)).
Proof.
  induction cycles as [|c rest IH]; simpl; [constructor|].
  destruct (stop_requested c); simpl; [constructor|].
  pose proof (proj1 (monitor_cycle_events self c)) as Hc.
  destruct (next (monitor_cycle self c)) as [[|]|e]; simpl; try exact Hc.
  apply Forall_app. auto.
Qed.

(** ** ServiceRegistry: announcement and health payload *)


(** C9 (amended).  When the announcement mechanism is unavailable (the
    zeroconf package cannot be imported), [start] prints a notice,
    ignores the failure and returns what it returns with no mDNS name
    configured; whenever [start] returns a record, it is the record it
    returns with no mDNS name configured.  [stop] does nothing and does
    not raise when no announcement is registered, and returns normally
    when unregistering succeeds.  An exception raised by the mechanism's
    own calls is not handled: other than [ImportError] it leaves
    [start], and any exception of unregistering leaves [stop]. *)
Theorem announcement_failures (self : ServiceRegistry) (env : host_env)
    (preferred_port : option Z) (z : mdns_env) :
  (import_zeroconf (zeroconf_env env) = Raise ImportError ->
     start_ignores_announcement self env preferred_port /\
     (truthy_str (mdns_name self) = true ->
      forall info, returned (snd (start self env preferred_port)) = Ok info ->
        printed (snd (start self env preferred_port)) = [ZeroconfNotInstalled])) /\
  (forall info, returned (snd (start self env preferred_port)) = Ok info ->
     returned (snd (start (without_mdns self) env preferred_port)) = Ok info) /\
  (forall p e, truthy_str (mdns_name self) = true ->
     snd (choose_port self (bindable env) preferred_port) = Ok p ->
     announce (zeroconf_env env) = Raise e -> e <> ImportError ->
     returned (snd (start self env preferred_port)) = Raise e) /\
  (_zeroconf self = None \/ _service_info self = None ->
     stop self z = {| returned := Ok tt; after := self; printed := [] |}) /\
  (_zeroconf self <> None -> _service_info self <> None ->
     returned (stop self z) = withdraw z /\
     (withdraw z = Ok tt ->
      printed (stop self z) = [MdnsUnregistered (mdns_name self)])).
Proof.
  split; [|split; [|split; [|split]]].
  - intros Himp. unfold start_ignores_announcement, start.
    change (choose_port (without_mdns self)) with (choose_port self).
    destruct (choose_port self (bindable env) preferred_port) as [probed [p|e]];
      simpl; [|split; [reflexivity | discriminate]].
    destruct (truthy_str (mdns_name self)) eqn:Et; simpl.
    + unfold _register_mdns, register_body. rewrite Himp. simpl.
      split; reflexivity.
    + split; [reflexivity | discriminate].
  - intros info. unfold start.
    change (choose_port (without_mdns self)) with (choose_port self).
    destruct (choose_port self (bindable env) preferred_port) as [probed [p|e]];
      simpl; [|discriminate].
    destruct (truthy_str (mdns_name self)); simpl; [|trivial].
    destruct (returned (_register_mdns _ _)); simpl; [trivial | discriminate].
  - intros p e Et Hp Ha Hne. unfold start.
    destruct (choose_port self (bindable env) preferred_port) as [probed r].
    simpl in Hp. subst r. simpl. simpl in Et. rewrite Et.
    unfold _register_mdns.
    match goal with |- context [register_body ?s ?zz] =>
      pose proof (register_body_announce s _ zz eq_refl) as Hb;
      destruct (register_body s zz) as [[zc mi]|x]
    end.
    + rewrite Hb in Ha. discriminate.
    + rewrite Hb in Ha. injection Ha as ->. now destruct e.
  - intros H. unfold stop.
    destruct H as [-> | ->]; [reflexivity|]. now destruct (_zeroconf self).
  - intros H1 H2. unfold stop, withdraw.
    destruct (_zeroconf self); [|contradiction].
    destruct (_service_info self); [|contradiction].
    destruct (bind _ _) as [[]|e]; simpl; split; try reflexivity; discriminate.
Qed.

(** C10.  Before [start] has been called the registry holds no record,
    and [health_response] returns the dict with the single entry
    "error": "Service not started"; it is a total function: it returns a
    value and raises nothing. *)
Theorem health_response_before_start (self : ServiceRegistry) (at_time : datetime) :
  service_info self = None ->
  health_response self at_time = PDict [("error", PStr "Service not started")].
Proof. intros H. unfold health_response. now rewrite H. Qed.

End Properties.

(** * Concrete runs *)

Section Runs.
Import Basic Run.
Local Open Scope Z_scope.

(** C1.  After a "recovery" or "disconnected" event the monitor should
    stop: no further health request, no further event.  The loop does so
    only after "restart".  With the tracked endpoint unreachable in two
    consecutive cycles it fires an event in each of them, requests the
    health endpoint again after the first event, and is still polling
    when the cycles run out. *)
Theorem monitor_polls_again_after_event :
  _monitor_loop tracked [down; down] =
    {| requests :=
         (Health (PInt 7775) :: map Scan (py_range 7765 7786)) ++
         (Health (PInt 7775) :: map Scan (py_range 7765 7786));
       fired := [disconnected_event; disconnected_event];
       ended := Polling |} /\
  _monitor_loop tracked [moved; moved] =
    {| requests :=
         (Health (PInt 7775) :: map Scan (py_range 7765 7779)) ++
         (Health (PInt 7775) :: map Scan (py_range 7765 7779));
       fired := [recovery_event; recovery_event];
       ended := Polling |} /\
  _monitor_loop tracked [replaced; down] =
    {| requests := [Health (PInt 7775)];
       fired := [restart_event tracked
                   (record "instance-2" 7775 5151 [("version", PStr "1.0")])];
       ended := Returned |}.
Proof. split; [|split]; reflexivity. Qed.

(** C2, the claim as stated fails: the event fired on a restart has
    type "restart", which is none of "restarted", "recovered",
    "disconnected". *)
Lemma restart_event_type_outside_spec :
  ~ Forall (fun e => In (event_type e) spec_event_types)
           (fired (_monitor_loop tracked [replaced])).
Proof.
  intros H.
  assert (fired (_monitor_loop tracked [replaced])
          = [restart_event tracked
               (record "instance-2" 7775 5151 [("version", PStr "1.0")])]) as E
    by reflexivity.
  rewrite E in H. apply Forall_inv in H.
  destruct H as [H|[H|[H|[]]]]; discriminate H.
Qed.

(** C3.  A response whose [start_time] is not a timestamp should be one
    more rejected candidate, or a failed health check.  The [ValueError]
    of [datetime.fromisoformat] is none of the three exceptions handled:
    it leaves [discover_service], and it leaves the monitor loop both
    from the health check and from the recovery scan, with no event. *)
Theorem malformed_start_time_propagates :
  discover_service (7770, 7779) (only 7772 (bad_start_time 7772))
                   (PStr "backend-api") (PDict [])
    = ([7770; 7771; 7772], Raise ValueError) /\
  _monitor_loop tracked [replaced_bad_start_time; same] =
    {| requests := [Health (PInt 7775)]; fired := [];
       ended := Died ValueError |} /\
  _monitor_loop tracked [down_bad_start_time; same] =
    {| requests := Health (PInt 7775) :: map Scan (py_range 7765 7771);
       fired := []; ended := Died ValueError |}.
Proof. split; [|split]; reflexivity. Qed.

(** C7.  A health response of another instance should give exactly one
    "restart" event and end the polling, and with a callback that
    returns it does.  The callback is called inside the [try] of the
    loop, whose [except] clause is written for a service that is down:
    when the callback, told of the restart, fails with [URLError] (it
    cannot reach the new instance), the failure is taken for a failed
    health check.  The [return] is skipped, the recovery scan runs over
    7765..7785, a second event, "disconnected", is fired in the same
    cycle, and the monitor requests the health endpoint again in the
    next cycle. *)
Theorem restart_callback_error_is_service_down :
  let new := record "instance-2" 7775 5151 [("version", PStr "1.0")] in
  health replaced_unreachable = Ok (good "instance-2" 7775 5151) /\
  on_change replaced_unreachable (restart_event tracked new) = Raise URLError /\
  _monitor_loop tracked [replaced; same] =
    {| requests := [Health (PInt 7775)];
       fired := [restart_event tracked new];
       ended := Returned |} /\
  _monitor_loop tracked [replaced_unreachable; same] =
    {| requests :=
         (Health (PInt 7775) :: map Scan (py_range 7765 7786)) ++
         [Health (PInt 7775)];
       fired := [restart_event tracked new; disconnected_event];
       ended := Polling |}.
Proof. intros new. split; [|split; [|split]]; reflexivity. Qed.

(** C4.  Port 7770 answers with an unreadable [start_time] and port 7771
    with a payload that [check_port] accepts: the first accepted
    candidate is the one at 7771, yet the scan ends at 7770 with
    [ValueError] and never requests 7771.  With no acceptable candidate
    at all the result should be [None]; the scan raises as well. *)
Theorem scan_raises_before_accepted_candidate :
  let fetch := both 7770 (bad_start_time 7770) 7771 (good "instance-3" 7771 77) in
  check_port fetch (PStr "backend-api") (PDict [("version", PStr "1.0")]) 7771
    = Ok (Some (record "instance-3" 7771 77 [("version", PStr "1.0")])) /\
  discover_service (7770, 7771) fetch (PStr "backend-api")
                   (PDict [("version", PStr "1.0")])
    = ([7770], Raise ValueError) /\
  discover_service (7770, 7771) (only 7770 (bad_start_time 7770))
                   (PStr "backend-api") (PDict [("version", PStr "1.0")])
    = ([7770], Raise ValueError).
Proof. split; [|split]; reflexivity. Qed.

(** C5, at two concrete records. *)
Lemma verify_service_identity_spec_witness :
  let other := record "instance-2" 7775 4242 [("version", PStr "1.0")] in
  discriminators_ok tracked = true /\ discriminators_ok other = true /\
  verify_service_identity tracked tracked = true /\
  verify_service_identity tracked other = verify_service_identity other tracked.
Proof.
  intros other.
  split; [reflexivity|]. split; [reflexivity|].
  pose proof (verify_service_identity_spec tracked other eq_refl eq_refl)
    as (_ & _ & Hrefl & Hsym & _).
  split; [exact Hrefl | exact Hsym].
Defined.

(** C6, the claim as stated fails: port 0 is supplied and bindable, and
    [start] scans the range and returns 7770; and with every port of the
    range taken, a bindable preferred port outside it is returned and
    nothing is raised. *)
Lemma preferred_port_zero_is_scanned :
  ~ preferred_returned_when_bindable registry (host all_free zeroconf_works) 0 /\
  ~ raises_iff_all_taken registry (host only_8080 zeroconf_works) (Some 8080).
Proof.
  split.
  - intros H. destruct (H eq_refl) as [Hprobed _].
    change (fst (start registry (host all_free zeroconf_works) (Some 0)))
      with [7770] in Hprobed.
    discriminate Hprobed.
  - intros [_ H].
    assert (all_taken only_8080 7770 7779) as Hall.
    { intros r Hr. split; [apply valid_port_spec; lia|].
      unfold only_8080. apply Z.eqb_neq. lia. }
    specialize (H Hall).
    change (returned (snd (start registry (host only_8080 zeroconf_works)
                                 (Some 8080))))
      with (Ok (record "instance-1" 8080 4242 [("version", PStr "1.0")])) in H.
    discriminate H.
Qed.

(** C6 (amended), at a registry with ports 7770..7772 taken. *)
Lemma start_port_allocation_witness :
  let env := host from_7773 zeroconf_works in
  choose_port registry (bindable env) (Some 7775) = ([7775], Ok 7775) /\
  choose_port registry (bindable env) (Some 70000)
    = ([70000], Raise OverflowError) /\
  choose_port registry (bindable env) (Some 7771)
    = ([7771; 7770; 7771; 7772; 7773], Ok 7773).
Proof.
  intros env. split; [|split].
  - apply (start_port_allocation registry env (Some 7775));
      [reflexivity | lia | split; reflexivity].
  - destruct (start_port_allocation registry env (Some 70000))
      as (_ & Hinvalid & _).
    apply Hinvalid; [reflexivity | lia | reflexivity].
  - destruct (start_port_allocation registry env (Some 7771))
      as (_ & _ & Hscan & _).
    destruct (Hscan eq_refl) as (Hfree & _).
    apply (Hfree 7773). split; [simpl; lia|].
    split; [split; reflexivity|].
    intros r Hr. simpl in Hr.
    assert (r = 7770 \/ r = 7771 \/ r = 7772) as [->|[->| ->]] by lia;
      split; reflexivity.
Defined.

(** C8, the claim as stated fails: the expected context asks for the key
    "version" with value [None]; the record returned has no such key. *)
Lemma absent_key_matches_none :
  exists info,
    discover_service (7770, 7771)
        (only 7771 (payload "backend-api" "instance-1" 7771 4242 []
                            "2024-03-01T12:00:00"))
        (PStr "backend-api") (PDict [("version", PNone)])
      = ([7770; 7771], Ok (Some info)) /\
    ~ context_has_keys [("version", PNone)] info.
Proof.
  exists (record "instance-1" 7771 4242 []). split; [reflexivity|].
  intros H. destruct (H "version" PNone eq_refl) as (c & w & Ec & El & _).
  simpl in Ec. injection Ec as <-. discriminate El.
Qed.

(** C8 (amended), at a scan that finds the service at port 7772. *)
Lemma discover_service_matches_expected_witness :
  let found := record "instance-2" 7772 5151 [("version", PStr "1.0")] in
  discover_service (7770, 7779) (only 7772 (good "instance-2" 7772 5151))
      (PStr "backend-api") (PDict [("version", PStr "1.0")])
    = ([7770; 7771; 7772], Ok (Some found)) /\
  py_eq (service_id found) (PStr "backend-api") = true.
Proof.
  intros found.
  assert (discover_service (7770, 7779) (only 7772 (good "instance-2" 7772 5151))
            (PStr "backend-api") (PDict [("version", PStr "1.0")])
          = ([7770; 7771; 7772], Ok (Some found))) as E
    by reflexivity.
  split; [exact E|].
  apply (discover_service_matches_expected _ _ _ _ _ _ E).
Defined.

(** C9, the claim as stated fails: [stop] raises when unregistering
    raises, and [start] raises instead of returning the record when
    [register_service] raises. *)
Lemma announcement_errors_propagate :
  ~ stop_never_raises registered unregister_fails /\
  ~ start_ignores_announcement announced (host all_free register_fails) None.
Proof.
  split; intros H.
  - change (returned (stop registered unregister_fails))
      with (@Raise unit OSError) in H.
    discriminate H.
  - unfold start_ignores_announcement in H.
    change (returned (snd (start announced (host all_free register_fails) None)))
      with (@Raise ServiceInfo OSError) in H.
    change (returned (snd (start (without_mdns announced)
                                 (host all_free register_fails) None)))
      with (Ok (record "instance-1" 7770 4242 [])) in H.
    discriminate H.
Qed.

(** C9 (amended), with the zeroconf package missing. *)
Lemma announcement_failures_witness :
  let env := host all_free zeroconf_missing in
  import_zeroconf (zeroconf_env env) = Raise ImportError /\
  start_ignores_announcement announced env None.
Proof.
  intros env. split; [reflexivity|].
  apply (announcement_failures announced env None zeroconf_works). reflexivity.
Defined.

(** C10, at a registry that was never started. *)
Lemma health_response_before_start_witness :
  service_info registry = None /\
  health_response registry noon = PDict [("error", PStr "Service not started")].
Proof.
  split; [reflexivity|].
  apply (health_response_before_start registry noon). reflexivity.
Defined.

End Runs.

(** * Further properties of the module *)

Section Scanner.
Context {DT : DateTime}.

Lemma app_same_length {A : Type} (a a' b b' : list A) :
  List.length a = List.length a' -> (a ++ b = a' ++ b')%list -> a = a' /\ b = b'.
Proof.
  revert a'. induction a as [|x a IH]; intros [|y a'] Hl H; simpl in *;
    try discriminate; [now split|].
  injection H as -> H. injection Hl as Hl.
  destruct (IH a' Hl H) as [-> ->]. now split.
Qed.

(** What a scan over [ports] tells about them: the ports requested are
    an initial part of [ports], all of them passed over but the last,
    which decided the result. *)
Lemma scan_outcome (fetch : Z -> result pyval)
    (expected_service_id expected : pyval) (ports probed : list Z)
    (r : result (option ServiceInfo)) :
  scan fetch expected_service_id expected ports = (probed, r) ->
  exists rest, ports = (probed ++ rest)%list /\
    match r with
    | Ok None =>
        rest = [] /\
        forall p, In p probed -> skipped fetch expected_service_id expected p
    | Ok (Some info) =>
        exists pre q, probed = (pre ++ [q])%list /\
          (forall p, In p pre -> skipped fetch expected_service_id expected p) /\
          check_port fetch expected_service_id expected q = Ok (Some info)
    | Raise e =>
        exists pre q, probed = (pre ++ [q])%list /\
          (forall p, In p pre -> skipped fetch expected_service_id expected p) /\
          check_port fetch expected_service_id expected q = Raise e /\
          caught e = false
    end.
Proof.
  revert probed r. induction ports as [|p ports IH]; simpl; intros probed r H.
  - injection H as <- <-. exists []. split; [reflexivity|].
    split; [reflexivity | intros ? []].
  - assert (forall pr r0,
              scan fetch expected_service_id expected ports = (pr, r0) ->
              skipped fetch expected_service_id expected p ->
              probed = p :: pr -> r = r0 ->
              exists rest, p :: ports = (probed ++ rest)%list /\
                match r with
                | Ok None =>
                    rest = [] /\
                    forall p, In p probed ->
                      skipped fetch expected_service_id expected p
                | Ok (Some info) =>
                    exists pre q, probed = (pre ++ [q])%list /\
                      (forall p, In p pre ->
                         skipped fetch expected_service_id expected p) /\
                      check_port fetch expected_service_id expected q
                        = Ok (Some info)
                | Raise e =>
                    exists pre q, probed = (pre ++ [q])%list /\
                      (forall p, In p pre ->
                         skipped fetch expected_service_id expected p) /\
                      check_port fetch expected_service_id expected q = Raise e /\
                      caught e = false
                end) as Hskip.
    { intros pr r0 E Hs -> ->.
      destruct (IH pr r0 E) as (rest & -> & Hr).
      exists rest. split; [reflexivity|].
      destruct r0 as [[info|]|e].
      - destruct Hr as (pre & q & -> & Hpre & Hq).
        exists (p :: pre), q. split; [reflexivity|]. split; [|exact Hq].
        intros x [<-|Hx]; [exact Hs | now apply Hpre].
      - destruct Hr as (-> & Hall). split; [reflexivity|].
        intros x [<-|Hx]; [exact Hs | now apply Hall].
      - destruct Hr as (pre & q & -> & Hpre & Hq & Hc).
        exists (p :: pre), q. split; [reflexivity|]. split; [|now split].
        intros x [<-|Hx]; [exact Hs | now apply Hpre]. }
    destruct (check_port fetch expected_service_id expected p)
      as [[info|]|e] eqn:E.
    + injection H as <- <-. exists ports. split; [reflexivity|].
      exists [], p. split; [reflexivity|]. split; [intros ? [] | exact E].
    + destruct (scan fetch expected_service_id expected ports) as [pr r0].
      injection H as <- <-.
      apply (Hskip pr r0 eq_refl); [now left | reflexivity | reflexivity].
    + destruct (caught e) eqn:Hc.
      * destruct (scan fetch expected_service_id expected ports) as [pr r0].
        injection H as <- <-.
        apply (Hskip pr r0 eq_refl); [right; eauto | reflexivity | reflexivity].
      * injection H as <- <-. exists ports. split; [reflexivity|].
        exists [], p. split; [reflexivity|]. split; [intros ? []|]. now split.
Qed.

Lemma py_range_snoc (lo q : Z) :
  lo <= q -> py_range lo (q + 1) = (py_range lo q ++ [q])%list.
Proof.
  intros H. unfold py_range.
  replace (Z.to_nat (q + 1 - lo)) with (S (Z.to_nat (q - lo))) by lia.
  rewrite seq_S, map_app. simpl. do 2 f_equal. lia.
Qed.

(** X1.  First match wins: for a port [q] of the range,
    [discover_service] returns a record after requesting exactly the
    ports [min..q] in ascending order if and only if [q] is the first
    port that is not passed over and its candidate is the record
    accepted there. *)
Theorem discover_service_first_accepted (port_range : Z * Z)
    (fetch : Z -> result pyval) (expected_service_id expected : pyval)
    (q : Z) (info : ServiceInfo) :
  fst port_range <= q <= snd port_range ->
  (discover_service port_range fetch expected_service_id expected
     = (py_range (fst port_range) (q + 1), Ok (Some info))
   <-> check_port fetch expected_service_id expected q = Ok (Some info) /\
       forall r, fst port_range <= r < q ->
         skipped fetch expected_service_id expected r).
Proof.
  intros Hq. split.
  - unfold discover_service. intros E.
    apply scan_outcome in E as (rest & _ & pre & q' & Hp & Hpre & Hq').
    rewrite py_range_snoc in Hp by lia.
    apply app_inj_tail in Hp as [<- <-].
    split; [exact Hq'|]. intros r Hr. apply Hpre. apply In_py_range. lia.
  - intros [Hc Hskip]. unfold discover_service.
    apply (scan_first_decisive fetch _ _ _ _ _ q eq_refl);
      [lia | exact Hskip | exact Hc].
Qed.

Lemma discover_service_none_iff_aux (port_range : Z * Z)
    (fetch : Z -> result pyval) (expected_service_id expected : pyval)
    (probed : list Z) :
  discover_service port_range fetch expected_service_id expected
    = (probed, Ok None) ->
  (forall r, fst port_range <= r <= snd port_range ->
     skipped fetch expected_service_id expected r) /\
  probed = py_range (fst port_range) (snd port_range + 1).
Proof.
  unfold discover_service. intros E.
  apply scan_outcome in E as (rest & Hports & -> & Hall).
  rewrite app_nil_r in Hports. split; [|now symmetry].
  intros r Hr. apply Hall. rewrite <- Hports. apply In_py_range. lia.
Qed.

(** X2.  [discover_service] returns [None] exactly when every port of
    the range is passed over (its candidate rejected or its exception
    one of the three handled); every port has then been requested. *)
Theorem discover_service_none_iff (port_range : Z * Z)
    (fetch : Z -> result pyval) (expected_service_id expected : pyval) :
  (snd (discover_service port_range fetch expected_service_id expected) = Ok None
   <-> forall r, fst port_range <= r <= snd port_range ->
         skipped fetch expected_service_id expected r) /\
  (snd (discover_service port_range fetch expected_service_id expected) = Ok None ->
   fst (discover_service port_range fetch expected_service_id expected)
     = py_range (fst port_range) (snd port_range + 1)).
Proof.
  assert (snd (discover_service port_range fetch expected_service_id expected)
            = Ok None ->
          fst (discover_service port_range fetch expected_service_id expected)
            = py_range (fst port_range) (snd port_range + 1) /\
          forall r, fst port_range <= r <= snd port_range ->
            skipped fetch expected_service_id expected r) as Hnone.
  { unfold discover_service.
    destruct (scan _ _ _ _) as [probed r] eqn:E. simpl. intros ->.
    apply scan_outcome in E as (rest & Hports & -> & Hall).
    rewrite app_nil_r in Hports. split; [now symmetry|].
    intros r Hr. apply Hall. rewrite <- Hports. apply In_py_range. lia. }
  split; [split|]; [apply Hnone| |apply Hnone].
  intros Hall. now rewrite (discover_service_not_found _ _ _ _ Hall).
Qed.

(** X3.  Whatever the ports answer, the ports [discover_service]
    requests are an initial part of [min..max] in ascending order; a
    record or an exception comes from the last port requested, and with
    [max < min] nothing is requested and the result is [None]. *)
Theorem discover_service_requests (port_range : Z * Z)
    (fetch : Z -> result pyval) (expected_service_id expected : pyval) :
  let found := discover_service port_range fetch expected_service_id expected in
  (exists n, (n <= Z.to_nat (snd port_range + 1 - fst port_range))%nat /\
             fst found = py_range (fst port_range) (fst port_range + Z.of_nat n)) /\
  (snd found <> Ok None ->
   exists q, fst found = py_range (fst port_range) (q + 1) /\
             fst port_range <= q <= snd port_range /\
             check_port fetch expected_service_id expected q = snd found) /\
  (snd port_range < fst port_range -> found = ([], Ok None)).
Proof.
  intros found.
  assert (forall pre rest,
            py_range (fst port_range) (snd port_range + 1) = (pre ++ rest)%list ->
            pre = py_range (fst port_range)
                           (fst port_range + Z.of_nat (List.length pre)) /\
            (List.length pre <= Z.to_nat (snd port_range + 1 - fst port_range))%nat)
    as Hprefix.
  { intros pre rest H. unfold py_range in *.
    assert (List.length pre + List.length rest
            = Z.to_nat (snd port_range + 1 - fst port_range))%nat as Hlen.
    { rewrite <- length_app, <- H, length_map, length_seq. reflexivity. }
    split; [|lia].
    replace (Z.to_nat (fst port_range + Z.of_nat (List.length pre) - fst port_range))
      with (List.length pre) by lia.
    rewrite <- Hlen, seq_app, map_app in H.
    apply app_same_length in H; [symmetry; apply H|].
    now rewrite length_map, length_seq. }
  unfold found, discover_service.
  destruct (scan _ _ _ _) as [probed r] eqn:E. simpl.
  pose proof (scan_outcome _ _ _ _ _ _ E) as (rest & Hports & Hr).
  destruct (Hprefix _ _ Hports) as (Hpre & Hlen).
  split; [eauto|]. split.
  - intros Hne.
    assert (exists pre q, probed = (pre ++ [q])%list /\
              check_port fetch expected_service_id expected q = r)
      as (pre & q & -> & Hq).
    { destruct r as [[info|]|e]; [| contradiction |].
      - destruct Hr as (pre & q & -> & _ & Hq). eauto.
      - destruct Hr as (pre & q & -> & _ & Hq & _). eauto. }
    rewrite length_app in Hpre, Hlen. simpl in Hpre, Hlen.
    assert (q = fst port_range + Z.of_nat (List.length pre)) as Eq.
    { rewrite Nat.add_1_r, Nat2Z.inj_succ in Hpre. unfold Z.succ in Hpre.
      rewrite Z.add_assoc in Hpre.
      assert (In q (pre ++ [q])) as Hin by (apply in_or_app; right; now left).
      pose proof (f_equal (@List.length Z) Hpre) as Hl.
      unfold py_range in Hpre at 1.
      replace (Z.to_nat (fst port_range + Z.of_nat (List.length pre) + 1
                         - fst port_range))
        with (S (List.length pre)) in Hpre by lia.
      rewrite seq_S, map_app in Hpre. simpl in Hpre.
      apply app_inj_tail in Hpre as [_ Hq']. exact Hq'. }
    exists q. split; [|split; [lia | exact Hq]].
    rewrite Hpre. f_equal. lia.
  - intros Hlt. rewrite py_range_nil in E by lia. simpl in E.
    now injection E as <- <-.
Qed.

(** X4.  An exception that leaves [discover_service] is never one of
    the handled ones ([URLError], its subclass [HTTPError],
    [JSONDecodeError], [KeyError]): it is the exception met at the last
    port requested, and every port before it was passed over. *)
Theorem discover_service_raises_unhandled (port_range : Z * Z)
    (fetch : Z -> result pyval) (expected_service_id expected : pyval)
    (probed : list Z) (e : exn) :
  discover_service port_range fetch expected_service_id expected
    = (probed, Raise e) ->
  caught e = false /\
  exists pre q, probed = (pre ++ [q])%list /\
    check_port fetch expected_service_id expected q = Raise e /\
    forall p, In p pre -> skipped fetch expected_service_id expected p.
Proof.
  unfold discover_service. intros E.
  apply scan_outcome in E as (rest & _ & pre & q & -> & Hpre & Hq & Hc).
  split; [exact Hc|]. eauto.
Qed.

End Scanner.

Section Registry.
Context {DT : DateTime}.

Lemma first_available_outcome (bindable : Z -> bool) (ports probed : list Z)
    (p : Z) :
  first_available bindable ports = (probed, Ok (Some p)) ->
  exists pre, probed = (pre ++ [p])%list /\ In p ports /\
    free bindable p /\ forall q, In q pre -> taken bindable q.
Proof.
  revert probed. induction ports as [|x ports IH]; intros probed H.
  - discriminate H.
  - rewrite first_available_cons in H.
    destruct (port_cases bindable x) as [Hf|[Ht|Hi]].
    + rewrite (is_port_available_free _ _ Hf) in H.
      injection H as <- <-. exists []. split; [reflexivity|].
      split; [now left|]. split; [exact Hf | intros ? []].
    + rewrite (is_port_available_taken _ _ Ht) in H.
      destruct (first_available bindable ports) as [pr r0] eqn:E.
      injection H as <- ->.
      destruct (IH _ eq_refl) as (pre & -> & Hin & Hq & Hpre).
      exists (x :: pre). split; [reflexivity|]. split; [now right|].
      split; [exact Hq|]. intros y [<-|Hy]; auto.
    + rewrite (is_port_available_invalid _ _ Hi) in H. discriminate H.
Qed.

Lemma start_record (self : ServiceRegistry) (env : host_env)
    (preferred_port : option Z) (info : ServiceInfo) :
  returned (snd (start self env preferred_port)) = Ok info ->
  exists p,
    snd (choose_port self (bindable env) preferred_port) = Ok p /\
    info = {| service_id := PStr (reg_service_id self);
              port := PInt p;
              instance_id := PStr (uuid4_first env);
              pid := PInt (getpid env);
              project_context := PDict (reg_project_context self);
              verification_token := PStr (uuid4_second env);
              start_time := now env;
              status := PStr "healthy" |} /\
    service_info (after (snd (start self env preferred_port))) = Some info /\
    mdns_name (after (snd (start self env preferred_port))) = mdns_name self.
Proof.
  unfold start.
  destruct (choose_port self (bindable env) preferred_port) as [probed [p|e]];
    simpl; [|discriminate].
  intros H. exists p. split; [reflexivity|].
  destruct (truthy_str (mdns_name self)); simpl in H.
  - unfold _register_mdns in *.
    destruct (register_body _ _) as [[z m]|e]; simpl in *.
    + injection H as <-. auto.
    + destruct e; simpl in *; try discriminate; injection H as <-; auto.
  - injection H as <-. auto.
Qed.

(** X5.  The port of the record [start] returns is the last port it
    probed and the only one whose bind probe succeeded: every port
    probed before it was taken.  It is the preferred port or a port of
    the range. *)
Theorem start_returns_first_bindable (self : ServiceRegistry) (env : host_env)
    (preferred_port : option Z) (info : ServiceInfo) :
  returned (snd (start self env preferred_port)) = Ok info ->
  exists p pre,
    port info = PInt p /\
    fst (start self env preferred_port) = (pre ++ [p])%list /\
    bindable env p = true /\
    (forall q, In q pre -> bindable env q = false) /\
    (preferred_port = Some p \/
     fst (reg_port_range self) <= p <= snd (reg_port_range self)).
Proof.
  intros H. destruct (start_record _ _ _ _ H) as (p & Hp & -> & _).
  exists p. simpl.
  destruct (start_uses_choose_port self env preferred_port) as [-> _].
  assert (forall probed,
            _find_available_port self (bindable env) = (probed, Ok p) ->
            exists pre, probed = (pre ++ [p])%list /\ bindable env p = true /\
              (forall q, In q pre -> bindable env q = false) /\
              fst (reg_port_range self) <= p <= snd (reg_port_range self))
    as Hfind.
  { unfold _find_available_port. destruct (reg_port_range self) as [lo hi].
    intros probed E.
    destruct (first_available (bindable env) (py_range lo (hi + 1)))
      as [pr [[q|]|x]] eqn:Ef; try discriminate.
    injection E as <- <-.
    apply first_available_outcome in Ef as (pre & -> & Hin & Hb & Hpre).
    apply In_py_range in Hin. simpl. exists pre.
    split; [reflexivity|]. split; [apply Hb|].
    split; [intros y Hy; now apply Hpre | lia]. }
  unfold choose_port in *.
  destruct preferred_port as [pp|].
  - destruct (truthy_int (Some pp)).
    + destruct (port_cases (bindable env) pp) as [Hf|[Ht|Hi]].
      * rewrite (is_port_available_free _ _ Hf) in *.
        simpl in Hp. injection Hp as <-. exists []. simpl.
        split; [reflexivity|]. split; [reflexivity|]. split; [apply Hf|].
        split; [intros ? [] | now left].
      * rewrite (is_port_available_taken _ _ Ht) in *.
        destruct (_find_available_port self (bindable env)) as [pr r] eqn:E.
        simpl in Hp. subst r.
        destruct (Hfind _ eq_refl) as (pre & -> & Hb & Hpre & Hr).
        exists (pp :: pre). simpl. repeat split; auto.
        intros q [<-|Hq]; auto. apply Ht.
      * rewrite (is_port_available_invalid _ _ Hi) in *. discriminate Hp.
    + destruct (_find_available_port self (bindable env)) as [pr r] eqn:E.
      simpl in Hp. subst r.
      destruct (Hfind _ eq_refl) as (pre & -> & Hb & Hpre & Hr).
      exists pre. simpl. repeat split; auto.
  - destruct (_find_available_port self (bindable env)) as [pr r] eqn:E.
    simpl in Hp. subst r.
    destruct (Hfind _ eq_refl) as (pre & -> & Hb & Hpre & Hr).
    exists pre. simpl. repeat split; auto.
Qed.

(** X6.  Round trip of the health payload: for a started registry,
    rebuilding a record from what [health_response] renders gives back
    the registry's record, provided the datetime library reads back the
    timestamp it wrote ([fromisoformat(t.isoformat()) == t]). *)
Theorem health_response_round_trip (self : ServiceRegistry)
    (info : ServiceInfo) (at_time : datetime) :
  service_info self = Some info ->
  fromisoformat (isoformat (start_time info)) = Some (start_time info) ->
  from_payload (health_response self at_time) = Ok info.
Proof.
  intros Hs Hiso. unfold health_response. rewrite Hs.
  unfold from_payload. simpl. rewrite Hiso. simpl. now destruct info.
Qed.

Lemma all_keys_match_same (ctx : list (string * pyval)) (ks : list string) :
  (forall k v, In (k, v) ctx -> unique_keys v = true) ->
  all_keys_match ctx (PDict ctx) ks = Ok true.
Proof.
  intros Hu. induction ks as [|k ks IH]; simpl; [reflexivity|].
  assert (py_eq (dict_get ctx k) (dict_get ctx k) = true) as ->; [|exact IH].
  apply py_eq_refl. unfold dict_get.
  destruct (lookup k ctx) as [v|] eqn:E; [|reflexivity].
  apply (Hu k v). now apply lookup_In.
Qed.

(** X7.  A service that was started is found by a scan for its own
    service id and project context: when the first port of the range
    that is not passed over serves the registry's [health_response],
    [discover_service] stops there and returns exactly the record
    [start] returned. *)
Theorem discover_finds_started_service (self : ServiceRegistry)
    (env : host_env) (preferred_port : option Z) (info : ServiceInfo)
    (port_range : Z * Z) (fetch : Z -> result pyval) (q : Z)
    (at_time : datetime) :
  returned (snd (start self env preferred_port)) = Ok info ->
  unique_keys (PDict (reg_project_context self)) = true ->
  fromisoformat (isoformat (now env)) = Some (now env) ->
  fst port_range <= q <= snd port_range ->
  fetch q = Ok (health_response (after (snd (start self env preferred_port)))
                                at_time) ->
  (forall r, fst port_range <= r < q ->
     skipped fetch (PStr (reg_service_id self))
             (PDict (reg_project_context self)) r) ->
  discover_service port_range fetch (PStr (reg_service_id self))
                   (PDict (reg_project_context self))
    = (py_range (fst port_range) (q + 1), Ok (Some info)).
Proof.
  intros Hstart Hu Hiso Hq Hfetch Hskip.
  destruct (start_record _ _ _ _ Hstart) as (p & _ & -> & Hafter & _).
  unfold discover_service.
  apply (scan_first_decisive fetch _ _ _ _ _ q eq_refl); [lia | exact Hskip |].
  unfold check_port. rewrite Hfetch. unfold health_response. rewrite Hafter.
  simpl. rewrite String.eqb_refl.
  unfold from_payload. simpl. rewrite Hiso. simpl.
  rewrite all_keys_match_same; [reflexivity|].
  intros k v Hin. simpl in Hu.
  apply andb_true_iff in Hu as [_ Hu]. rewrite forallb_forall in Hu.
  apply (Hu (k, v) Hin).
Qed.

(** X8.  [quick_start] with no mDNS name returns a healthy record for
    the given service id and context (an absent context reads as the
    empty dict) at the lowest free port of the range, after probing the
    ports up to it in ascending order and printing nothing; it raises
    [OverflowError] when the scan reaches a number outside 0..65535
    before a free port, and [NoAvailablePortError] exactly when every
    port of the range is taken. *)
Theorem quick_start_lowest_port (service_id : string) (port_range : Z * Z)
    (project_context : option (list (string * pyval))) (env : host_env) :
  let r := quick_start service_id port_range project_context None env in
  (forall q, first_free (bindable env) (fst port_range) (snd port_range) q ->
     fst r = py_range (fst port_range) (q + 1) /\
     printed (snd r) = [] /\
     returned (snd r) =
       Ok {| Shuffle.service_id := PStr service_id;
             port := PInt q;
             instance_id := PStr (uuid4_first env);
             pid := PInt (getpid env);
             Shuffle.project_context :=
               PDict match project_context with
                     | Some m => m
                     | None => []
                     end;
             verification_token := PStr (uuid4_second env);
             start_time := now env;
             status := PStr "healthy" |}) /\
  (forall q, first_invalid (bindable env) (fst port_range) (snd port_range) q ->
     fst r = py_range (fst port_range) (q + 1) /\
     printed (snd r) = [] /\
     returned (snd r) = Raise OverflowError) /\
  (returned (snd r) = Raise NoAvailablePortError <->
   all_taken (bindable env) (fst port_range) (snd port_range)).
Proof.
  intros r. unfold r, quick_start, start, choose_port.
  set (registry := init service_id port_range project_context None).
  assert (reg_port_range registry = port_range) as Hrange by reflexivity.
  split; [|split].
  - intros q Hq. rewrite <- Hrange in Hq.
    rewrite (find_available_port_free registry _ q Hq). simpl.
    repeat split. now destruct project_context as [[|b m]|].
  - intros q Hq. rewrite <- Hrange in Hq.
    rewrite (find_available_port_invalid registry _ q Hq). simpl.
    repeat split.
  - pose proof (find_available_port_raises registry (bindable env)) as Hr.
    rewrite Hrange in Hr. rewrite <- Hr.
    destruct (_find_available_port registry (bindable env)) as [probed [p|e]];
      simpl; [split; discriminate|].
    split; intros [= ->]; reflexivity.
Qed.

End Registry.

Section Monitor.
Context {DT : DateTime}.

Lemma service_down_event_probes (self : ServiceInfo)
    (fetch : Z -> result pyval) :
  exists probed,
    fst (service_down_event self fetch) = map Scan probed /\
    (probed <> [] -> exists lo hi n,
       py_add_int (port self) (-10) = Ok lo /\
       py_add_int (port self) 10 = Ok hi /\
       (n <= Z.to_nat (hi + 1 - lo))%nat /\
       probed = py_range lo (lo + Z.of_nat n)) /\
    forall e, snd (service_down_event self fetch) = Raise e ->
              caught e = false.
Proof.
  unfold service_down_event.
  destruct (py_add_int (port self) (-10)) as [lo|e1] eqn:E1; simpl.
  - destruct (py_add_int (port self) 10) as [hi|e2] eqn:E2; simpl.
    + destruct (discover_service (lo, hi) fetch (service_id self)
                  (project_context self)) as [probed r] eqn:E.
      simpl. exists probed. split; [reflexivity|]. split.
      * intros _. unfold discover_service in E. simpl in E.
        apply scan_outcome in E as (rest & Hports & _).
        exists lo, hi, (List.length probed). split; [reflexivity|].
        split; [reflexivity|].
        unfold py_range in *.
        assert (List.length probed + List.length rest
                = Z.to_nat (hi + 1 - lo))%nat as Hlen.
        { rewrite <- length_app, <- Hports, length_map, length_seq.
          reflexivity. }
        split; [lia|].
        replace (Z.to_nat (lo + Z.of_nat (List.length probed) - lo))
          with (List.length probed) by lia.
        rewrite <- Hlen, seq_app, map_app in Hports.
        apply app_same_length in Hports; [symmetry; apply Hports|].
        now rewrite length_map, length_seq.
      * intros e He. destruct r as [[new|]|x]; try discriminate.
        injection He as ->. unfold discover_service in E.
        now apply scan_outcome in E as (_ & _ & _ & _ & _ & _ & _ & Hc).
    + exists []. split; [reflexivity|]. split; [intros []; reflexivity|].
      intros e [= <-]. unfold py_add_int in E2.
      destruct (port self); try discriminate; now injection E2 as <-.
  - exists []. split; [reflexivity|]. split; [intros []; reflexivity|].
    intros e [= <-]. unfold py_add_int in E1.
    destruct (port self); try discriminate; now injection E1 as <-.
Qed.

(** How a pass ends once the health check counts as failed: the scan
    or the callback raises, or the loop sleeps. *)
Lemma service_down_cycle_cases (self : ServiceInfo) (c : cycle_env) :
  exists probed,
    fst (service_down_event self (scan_fetch c)) = map Scan probed /\
    probes (service_down_cycle self c) = Health (port self) :: map Scan probed /\
    ((exists x, caught x = false /\
        events (service_down_cycle self c) = [] /\
        next (service_down_cycle self c) = Raise x) \/
     (exists e,
        service_down_event self (scan_fetch c) = (map Scan probed, Ok e) /\
        event_type e <> "restart" /\
        events (service_down_cycle self c) = [e] /\
        (on_change c e = Ok tt /\ next (service_down_cycle self c) = Ok Sleep \/
         exists x, on_change c e = Raise x /\
                   next (service_down_cycle self c) = Raise x))).
Proof.
  destruct (service_down_event_probes self (scan_fetch c))
    as (probed & Hp & _ & Hraise).
  exists probed. split; [exact Hp|]. rewrite service_down_cycle_eq.
  destruct (service_down_event self (scan_fetch c)) as [scanned [e|x]] eqn:E;
    simpl in Hp; subst scanned; simpl.
  - split; [reflexivity|]. right. exists e. split; [reflexivity|].
    split; [apply (service_down_event_ok _ _ _ _ E)|].
    split; [reflexivity|].
    destruct (on_change c e) as [[]|x]; [left; auto | right; eauto].
  - split; [reflexivity|]. left. exists x. auto.
Qed.

(** Every pass makes the health request first, and after it only
    requests of the recovery scan. *)
Lemma monitor_cycle_probes (self : ServiceInfo) (c : cycle_env) :
  exists probed,
    probes (monitor_cycle self c) = Health (port self) :: map Scan probed /\
    (probed = [] \/
     fst (service_down_event self (scan_fetch c)) = map Scan probed).
Proof.
  destruct (service_down_cycle_cases self c) as (probed & Hp & Hd & _).
  destruct (monitor_cycle_cases self c)
    as [->|[(x & _ & ->)|[->|[(new & _ & ->)|[(new & x & _ & _ & ->)
                                             |(new & x & _ & _ & ->)]]]]];
    simpl;
    first [ exists probed; split; [exact Hd | now right]
          | exists []; split; [reflexivity | now left] ].
Qed.

(** An event of a pass is the "restart" event of the health check or
    the event the recovery scan built. *)
Lemma monitor_cycle_event_origin (self : ServiceInfo) (c : cycle_env)
    (e : ServiceChangeEvent) :
  In e (events (monitor_cycle self c)) ->
  (exists new, e = restart_event self new) \/
  (event_type e <> "restart" /\
   exists scanned, service_down_event self (scan_fetch c) = (scanned, Ok e)).
Proof.
  assert (In e (events (service_down_cycle self c)) ->
          event_type e <> "restart" /\
          exists scanned,
            service_down_event self (scan_fetch c) = (scanned, Ok e)) as Hdown.
  { destruct (service_down_cycle_cases self c)
      as (probed & _ & _ & [(x & _ & -> & _)|(ev & E & Hne & -> & _)]);
      [intros []|].
    intros [<-|[]]. eauto. }
  destruct (monitor_cycle_cases self c)
    as [->|[(x & _ & ->)|[->|[(new & _ & ->)|[(new & x & _ & _ & ->)
                                             |(new & x & _ & _ & ->)]]]]];
    simpl; try contradiction; try (now right; apply Hdown).
  - intros [<-|[]]. eauto.
  - intros [<-|[]]. eauto.
  - intros [<-|H]; [eauto | right; now apply Hdown].
Qed.

Lemma fired_in_cycle (self : ServiceInfo) (cycles : list cycle_env)
    (e : ServiceChangeEvent) :
  In e (fired (_monitor_loop self cycles)) ->
  exists c, In c cycles /\ In e (events (monitor_cycle self c)).
Proof.
  induction cycles as [|c rest IH]; simpl; [contradiction|].
  destruct (stop_requested c); simpl; [contradiction|].
  destruct (next (monitor_cycle self c)) as [[|]|x]; simpl; eauto.
  intros H. apply in_app_or in H as [H|H]; [eauto|].
  destruct (IH H) as (c' & Hc & He). eauto.
Qed.

Lemma from_payload_of (m : list (string * pyval)) (new : ServiceInfo)
    (started : string) :
  payload_of m new started -> from_payload (PDict m) = Ok new.
Proof.
  intros (L1 & L2 & L3 & L4 & L5 & L6 & L7 & Lt & L8).
  unfold from_payload, py_subscript.
  rewrite L1, L2, L3, L4, L5, L6, L7, L8. simpl. rewrite Lt. simpl.
  now destruct new.
Qed.

(** X22.  A polling cycle whose health request yields a decoded JSON
    object.  When the observed [instance_id] and [pid] both equal those
    of the tracked record, no event is fired and the loop goes on to the
    next cycle.  When either differs and the payload carries the fields
    of a record, the callback is handed a "restart" event with the
    tracked record and the observed one: if it returns, this is the only
    event and the loop returns, no later cycle is run; if it raises an
    exception the loop does not handle, the loop ends with it; if it
    raises one the loop handles, the pass goes on as a failed health
    check does, after the "restart" event. *)
Theorem monitor_cycle_healthy_response (self : ServiceInfo) (c : cycle_env)
    (rest : list cycle_env) (m : list (string * pyval)) :
  stop_requested c = false ->
  health c = Ok (PDict m) ->
  (py_eq (dict_get m "instance_id") (instance_id self) = true ->
   py_eq (dict_get m "pid") (pid self) = true ->
     monitor_cycle self c =
       {| probes := [Health (port self)]; events := []; next := Ok Sleep |} /\
     _monitor_loop self (c :: rest) =
       {| requests := Health (port self) :: requests (_monitor_loop self rest);
          fired := fired (_monitor_loop self rest);
          ended := ended (_monitor_loop self rest) |}) /\
  (py_eq (dict_get m "instance_id") (instance_id self) = false \/
   py_eq (dict_get m "pid") (pid self) = false ->
   forall new started, payload_of m new started ->
     (on_change c (restart_event self new) = Ok tt ->
      monitor_cycle self c =
        {| probes := [Health (port self)];
           events := [restart_event self new];
           next := Ok Return |} /\
      _monitor_loop self (c :: rest) =
        {| requests := [Health (port self)];
           fired := [restart_event self new];
           ended := Returned |}) /\
     (forall x, on_change c (restart_event self new) = Raise x ->
        caught x = false ->
        _monitor_loop self (c :: rest) =
          {| requests := [Health (port self)];
             fired := [restart_event self new];
             ended := Died x |}) /\
     (forall x, on_change c (restart_event self new) = Raise x ->
        caught x = true ->
        monitor_cycle self c =
          {| probes := probes (service_down_cycle self c);
             events := restart_event self new
                         :: events (service_down_cycle self c);
             next := next (service_down_cycle self c) |})).
Proof.
  intros Hstop Hh. split.
  - intros Hi Hp.
    assert (monitor_cycle self c =
      {| probes := [Health (port self)]; events := []; next := Ok Sleep |}) as E.
    { unfold monitor_cycle, health_check, py_ne. rewrite Hh. simpl.
      rewrite Hi, Hp. reflexivity. }
    split; [exact E|]. simpl. rewrite Hstop, E. reflexivity.
  - intros Hd new started Hpay.
    pose proof (from_payload_of _ _ _ Hpay) as Hnew.
    assert (health_check self (health c) = Ok (Some new)) as Hcheck.
    { unfold health_check, py_ne. rewrite Hh. simpl.
      destruct (py_eq (dict_get m "instance_id") (instance_id self)) eqn:Ei; simpl.
      - destruct Hd as [Hd|Hd]; [discriminate|]. rewrite Hd. simpl.
        rewrite Hnew. reflexivity.
      - rewrite Hnew. reflexivity. }
    split; [|split].
    + intros Hcb.
      assert (monitor_cycle self c =
        {| probes := [Health (port self)]; events := [restart_event self new];
           next := Ok Return |}) as E.
      { unfold monitor_cycle. rewrite Hcheck.
        fold (restart_event self new). now rewrite Hcb. }
      split; [exact E|]. simpl. rewrite Hstop, E. reflexivity.
    + intros x Hcb Hc. simpl. rewrite Hstop.
      unfold monitor_cycle. rewrite Hcheck.
      fold (restart_event self new). rewrite Hcb, Hc. reflexivity.
    + intros x Hcb Hc. unfold monitor_cycle. rewrite Hcheck.
      fold (restart_event self new). rewrite Hcb, Hc. reflexivity.
Qed.

(** X9.  Fed only responses of the tracked instance itself (the same
    [instance_id] and [pid]) and never stopped, the monitor fires no
    event: it makes exactly one health request per cycle and no scan,
    and is still polling after any number of cycles. *)
Theorem monitor_quiet_while_unchanged (self : ServiceInfo)
    (cycles : list cycle_env) :
  Forall (answers_as self) cycles ->
  _monitor_loop self cycles =
    {| requests := repeat (Health (port self)) (List.length cycles);
       fired := [];
       ended := Polling |}.
Proof.
  induction 1 as [|c rest (Hstop & m & Hh & Hi & Hp) _ IH]; simpl;
    [reflexivity|].
  rewrite Hstop.
  assert (monitor_cycle self c =
    {| probes := [Health (port self)]; events := []; next := Ok Sleep |}) as ->.
  { unfold monitor_cycle, health_check, py_ne. rewrite Hh. simpl.
    now rewrite Hi, Hp. }
  simpl. now rewrite IH.
Qed.

(** X10.  Every cycle that runs makes exactly one health request and
    hands the callback at most two events, so that in any run the events
    are at most twice the health requests, which are at most the cycles.
    When the callback returns normally from every "restart" event, a
    cycle fires at most one event and the events are at most the health
    requests. *)
Theorem monitor_event_count (self : ServiceInfo) (cycles : list cycle_env) :
  (List.length (fired (_monitor_loop self cycles))
     <= 2 * List.length (filter is_health (requests (_monitor_loop self cycles))))%nat /\
  (List.length (filter is_health (requests (_monitor_loop self cycles)))
     <= List.length cycles)%nat /\
  (Forall restart_accepted cycles ->
   (List.length (fired (_monitor_loop self cycles))
      <= List.length (filter is_health (requests (_monitor_loop self cycles))))%nat).
Proof.
  assert (forall l : list Z, filter is_health (map Scan l) = []) as Hscan.
  { induction l; simpl; auto. }
  induction cycles as [|c rest (IH1 & IH2 & IH3)]; simpl.
  { repeat split; intros; simpl; lia. }
  destruct (stop_requested c); simpl.
  { repeat split; intros; simpl; lia. }
  destruct (monitor_cycle_probes self c) as (probed & Hp & _).
  destruct (monitor_cycle_events self c) as (_ & Htwo & Hone).
  assert (List.length (filter is_health (probes (monitor_cycle self c))) = 1%nat)
    as Hh.
  { rewrite Hp. simpl. now rewrite Hscan. }
  destruct (next (monitor_cycle self c)) as [[|]|x]; simpl;
    rewrite ?filter_app, ?length_app, ?Hh;
    (split; [lia|]); (split; [lia|]);
    intros Hacc; inversion Hacc as [|? ? Hc Hrest]; subst;
    specialize (Hone Hc); try specialize (IH3 Hrest); lia.
Qed.

(** X11.  When the callback returns normally from every "restart"
    event, a "restart" event is terminal: the loop ends by its [return]
    exactly when the last event fired is a "restart" event for the
    tracked record, and no event before the last is a "restart". *)
Theorem restart_event_is_last (self : ServiceInfo) (cycles : list cycle_env) :
  Forall restart_accepted cycles ->
  (ended (_monitor_loop self cycles) = Returned ->
   exists earlier new,
     fired (_monitor_loop self cycles) = (earlier ++ [restart_event self new])%list /\
     Forall (fun e => event_type e <> "restart") earlier) /\
  (ended (_monitor_loop self cycles) <> Returned ->
   Forall (fun e => event_type e <> "restart")
          (fired (_monitor_loop self cycles))).
Proof.
  induction 1 as [|c rest Hc _ [IH1 IH2]]; simpl.
  - split; [discriminate | constructor].
  - destruct (stop_requested c); simpl; [split; [discriminate | constructor]|].
    destruct (service_down_cycle_events self c) as (_ & Hdown & _).
    destruct (service_down_cycle_cases self c) as (probed & _ & _ & Hnext).
    destruct (monitor_cycle_cases self c)
      as [->|[(x & _ & ->)|[->|[(new & _ & ->)|[(new & x & Ec & _ & _)
                                               |(new & x & Ec & _ & _)]]]]];
      simpl.
    + split; assumption.
    + split; [discriminate | constructor].
    + destruct Hnext as [(x & _ & -> & ->)
                        |(e & _ & He & -> & [(_ & ->)|(x & _ & ->)])]; simpl.
      * split; [discriminate | constructor].
      * split.
        -- intros H. destruct (IH1 H) as (earlier & new & -> & Hall).
           exists (e :: earlier), new. split; [reflexivity|]. now constructor.
        -- intros H. constructor; [exact He | now apply IH2].
      * split; [discriminate|]. intros _. constructor; [exact He | constructor].
    + split; [|contradiction]. intros _. exists [], new.
      split; [reflexivity | constructor].
    + rewrite (Hc (restart_event self new) eq_refl) in Ec. discriminate Ec.
    + rewrite (Hc (restart_event self new) eq_refl) in Ec. discriminate Ec.
Qed.

(** X12.  An exception of a type the loop handles ([URLError],
    [HTTPError], [JSONDecodeError], [KeyError]) ends the loop only when
    the callback raises it on a "recovery" or "disconnected" event,
    which [_handle_service_down] hands over outside any [try]: an
    exception that leaves [_monitor_loop] is of another type, or it was
    raised by the callback on such an event, the last event fired. *)
Theorem monitor_dies_only_unhandled (self : ServiceInfo)
    (cycles : list cycle_env) (e : exn) :
  ended (_monitor_loop self cycles) = Died e ->
  caught e = false \/
  exists c earlier event,
    In c cycles /\
    fired (_monitor_loop self cycles) = (earlier ++ [event])%list /\
    event_type event <> "restart" /\
    on_change c event = Raise e.
Proof.
  induction cycles as [|c rest IH]; simpl; [discriminate|].
  destruct (stop_requested c); simpl; [discriminate|].
  assert (forall before,
            next (service_down_cycle self c) = Raise e ->
            caught e = false \/
            exists c0 earlier event,
              (c = c0 \/ In c0 rest) /\
              (before ++ events (service_down_cycle self c))%list
                = (earlier ++ [event])%list /\
              event_type event <> "restart" /\
              on_change c0 event = Raise e) as Hdown.
  { intros before.
    destruct (service_down_cycle_cases self c)
      as (probed & _ & _ & [(x & Hx & -> & ->)
                           |(ev & _ & He & -> & [(_ & ->)|(x & Ex & ->)])]).
    - intros [= <-]. now left.
    - discriminate.
    - intros [= <-]. right. exists c, before, ev. auto. }
  assert (forall before,
            ended (_monitor_loop self rest) = Died e ->
            caught e = false \/
            exists c0 earlier event,
              (c = c0 \/ In c0 rest) /\
              (before ++ fired (_monitor_loop self rest))%list
                = (earlier ++ [event])%list /\
              event_type event <> "restart" /\
              on_change c0 event = Raise e) as Hlater.
  { intros before H.
    destruct (IH H) as [Hc|(c0 & earlier & ev & Hin & -> & He & Ex)];
      [now left|].
    right. exists c0, (before ++ earlier)%list, ev.
    rewrite app_assoc. auto. }
  destruct (monitor_cycle_cases self c)
    as [->|[(x & Hx & ->)|[->|[(new & _ & ->)|[(new & x & _ & Hx & ->)
                                             |(new & x & _ & _ & ->)]]]]];
    simpl.
  - apply (Hlater []).
  - intros [= <-]. now left.
  - destruct (next (service_down_cycle self c)) as [[|]|x] eqn:En; simpl.
    + apply (Hlater (events (service_down_cycle self c))).
    + discriminate.
    + intros [= ->]. apply (Hdown []). reflexivity.
  - discriminate.
  - intros [= <-]. now left.
  - destruct (next (service_down_cycle self c)) as [[|]|y] eqn:En; simpl.
    + apply (Hlater (restart_event self new :: events (service_down_cycle self c))).
    + discriminate.
    + intros [= ->]. apply (Hdown [restart_event self new]). reflexivity.
Qed.

(** X13.  Cancellation: a cycle whose loop test reads the stop signal
    adds no request and no event, and nothing after it runs; the run
    ends as the cycles before it ended, or as stopped if they had left
    the loop polling. *)
Theorem stop_ends_the_loop (self : ServiceInfo) (before : list cycle_env)
    (c : cycle_env) (rest : list cycle_env) :
  stop_requested c = true ->
  requests (_monitor_loop self (before ++ c :: rest))
    = requests (_monitor_loop self before) /\
  fired (_monitor_loop self (before ++ c :: rest))
    = fired (_monitor_loop self before) /\
  ended (_monitor_loop self (before ++ c :: rest))
    = match ended (_monitor_loop self before) with
      | Polling => Stopped
      | other => other
      end.
Proof.
  intros Hc. induction before as [|b before (IH1 & IH2 & IH3)]; simpl.
  - now rewrite Hc.
  - destruct (stop_requested b); simpl; [auto|].
    destruct (next (monitor_cycle self b)) as [[|]|x]; simpl; auto.
    now rewrite IH1, IH2, IH3.
Qed.

(** X14.  The recovery scan stays in the window of the tracked port:
    with the tracked port an integer [p], every port the monitor scans
    lies in [p - 10 .. p + 10], and a cycle makes at most 22 requests
    (the health check and 21 ports). *)
Theorem recovery_scan_window (self : ServiceInfo) (cycles : list cycle_env)
    (p : Z) :
  port self = PInt p ->
  (forall q, In (Scan q) (requests (_monitor_loop self cycles)) ->
     p - 10 <= q <= p + 10) /\
  (forall c, List.length (probes (monitor_cycle self c)) <= 22)%nat.
Proof.
  intros Hport.
  assert (forall fetch probed,
            fst (service_down_event self fetch) = map Scan probed ->
            (forall q, In q probed -> p - 10 <= q <= p + 10) /\
            (List.length probed <= 21)%nat) as Hwin.
  { intros fetch probed Hp.
    destruct (service_down_event_probes self fetch) as (probed' & Hp' & Hr & _).
    rewrite Hp in Hp'.
    assert (probed = probed') as <-.
    { clear - Hp'. revert probed' Hp'.
      induction probed as [|x l IH]; intros [|y l'] H; simpl in H;
        try discriminate; [reflexivity|].
      injection H as -> H. f_equal. now apply IH. }
    destruct probed as [|q0 l]; [split; [intros ? [] | simpl; lia]|].
    destruct Hr as (lo & hi & n & Hlo & Hhi & Hn & Hrange); [discriminate|].
    rewrite Hport in Hlo, Hhi. simpl in Hlo, Hhi.
    injection Hlo as <-. injection Hhi as <-.
    split.
    - intros q Hq. rewrite Hrange in Hq. apply In_py_range in Hq. lia.
    - rewrite Hrange. unfold py_range. rewrite length_map, length_seq. lia. }
  assert (forall c q, In (Scan q) (probes (monitor_cycle self c)) ->
                      p - 10 <= q <= p + 10) as Hcycle.
  { intros c q. destruct (monitor_cycle_probes self c) as (probed & -> & Hp).
    intros [H|H]; [discriminate|].
    apply in_map_iff in H as (q' & [= ->] & Hin).
    destruct Hp as [->|Hp]; [destruct Hin|].
    now apply (proj1 (Hwin _ _ Hp)). }
  split.
  - induction cycles as [|c rest IH]; simpl; [intros ? []|].
    destruct (stop_requested c); simpl; [intros ? []|].
    destruct (next (monitor_cycle self c)) as [[|]|x]; simpl;
      try apply Hcycle.
    intros q H. apply in_app_or in H as [H|H];
      [now apply (Hcycle c) | now apply IH].
  - intros c. destruct (monitor_cycle_probes self c) as (probed & -> & Hp).
    simpl. rewrite length_map.
    destruct Hp as [->|Hp]; [simpl; lia|].
    pose proof (proj2 (Hwin _ _ Hp)). lia.
Qed.

End Monitor.

(** ** Identity, recovery, monitor object and announcement *)

Lemma py_eq_trans (a : pyval) :
  forall b c, py_eq a b = true -> py_eq b c = true -> py_eq a c = true.
Proof.
  induction a as [| x | x | x | l IH | m IH] using pyval_ind;
    intros [| y | y | y | l' | n] [| z | z | z | l'' | o]; simpl;
    try discriminate; try reflexivity.
  - intros H1 H2. apply Bool.eqb_prop in H1, H2. subst. apply Bool.eqb_reflx.
  - intros H1 H2. apply Bool.eqb_prop in H1. now subst.
  - intros H1 H2. apply Z.eqb_eq in H1, H2. subst.
    destruct x, z; simpl in *; try reflexivity; discriminate.
  - intros H1 H2. apply Z.eqb_eq in H1, H2. apply Z.eqb_eq. congruence.
  - intros H1 H2. apply Z.eqb_eq in H1. apply Bool.eqb_prop in H2.
    apply Z.eqb_eq. congruence.
  - intros H1 H2. apply Z.eqb_eq in H1, H2. apply Z.eqb_eq. congruence.
  - intros H1 H2. apply Z.eqb_eq in H1, H2. apply Z.eqb_eq. congruence.
  - intros H1 H2. apply Z.eqb_eq in H1, H2. apply Z.eqb_eq. congruence.
  - intros H1 H2. apply String.eqb_eq in H1, H2. apply String.eqb_eq. congruence.
  - revert l' l''. induction l as [|v l IHl]; intros [|w l'] [|u l''] H1 H2;
      simpl in *; try discriminate; try reflexivity.
    apply andb_true_iff in H1 as [H1 H1'], H2 as [H2 H2'].
    inversion IH as [|? ? Hv Hl]; subst.
    rewrite (Hv _ _ H1 H2). simpl. now apply (IHl Hl l' l'').
  - intros H1 H2.
    apply andb_true_iff in H1 as [L1 H1], H2 as [L2 H2].
    apply Nat.eqb_eq in L1, L2.
    rewrite forallb_forall in H1, H2. rewrite Forall_forall in IH.
    apply andb_true_iff. split; [apply Nat.eqb_eq; congruence|].
    apply forallb_forall. intros [k v] Hin. simpl.
    specialize (H1 (k, v) Hin). simpl in H1.
    destruct (lookup k n) as [w|] eqn:En; [|discriminate].
    specialize (H2 (k, w) (lookup_In _ _ _ En)). simpl in H2.
    destruct (lookup k o) as [u|] eqn:Eo; [|discriminate].
    apply (IH (k, v) Hin w u H1 H2).
Qed.

Section Identity.
Context {DT : DateTime}.

(** X15.  [verify_service_identity] is transitive: if [a] and [b]
    denote the same instance and so do [b] and [c], then so do [a] and
    [c]. *)
Theorem verify_service_identity_trans (a b c : ServiceInfo) :
  verify_service_identity a b = true ->
  verify_service_identity b c = true ->
  verify_service_identity a c = true.
Proof.
  rewrite !verify_service_identity_true.
  intros (A1 & A2 & A3 & A4) (B1 & B2 & B3 & B4).
  repeat split; eapply py_eq_trans; eassumption.
Qed.

(** X16.  A "recovery" event carries a record that the recovery scan
    accepted for the tracked service: its service id equals the tracked
    one, its status is "healthy", and every key of the tracked project
    context reads the same with [.get] in its context. *)
Theorem recovery_event_matches_tracked (self : ServiceInfo)
    (cycles : list cycle_env) (e : ServiceChangeEvent) :
  In e (fired (_monitor_loop self cycles)) ->
  event_type e = "recovery" ->
  exists new tracked_context,
    new_service e = Some new /\
    py_eq (service_id new) (service_id self) = true /\
    status new = PStr "healthy" /\
    project_context self = PDict tracked_context /\
    context_gets_agree tracked_context new.
Proof.
  intros Hin Htype.
  assert (exists c scanned,
            service_down_event self (scan_fetch c) = (scanned, Ok e)) as Hdown.
  { destruct (fired_in_cycle _ _ _ Hin) as (c & _ & Hc).
    destruct (monitor_cycle_event_origin _ _ _ Hc)
      as [(new & ->)|(_ & scanned & E)]; [discriminate Htype|].
    eauto. }
  destruct Hdown as (c & scanned & E). unfold service_down_event in E.
  destruct (bind _ _) as [range|]; [|discriminate].
  destruct (discover_service range (scan_fetch c) (service_id self)
              (project_context self)) as [probed [[new|]|x]] eqn:Ed;
    [| injection E as _ <-; discriminate Htype | discriminate E].
  injection E as _ <-. simpl.
  unfold discover_service in Ed.
  apply scan_found in Ed as (q & _ & Hq).
  apply check_port_accepts in Hq as (m & _ & Hs & Hst & Hp & Hc).
  apply from_payload_Ok in Hp as (m' & [= <-] & L1 & _ & _ & _ & _ & _ & _ & L8).
  unfold dict_get in Hs, Hst. rewrite L1 in Hs. rewrite L8 in Hst.
  unfold context_matches in Hc.
  destruct (project_context self) as [| | | | |ctx]; try discriminate.
  exists new, ctx. split; [reflexivity|]. split; [exact Hs|].
  split; [now apply py_eq_str|]. split; [reflexivity|].
  intros key v Hk.
  destruct (all_keys_match_true _ _ _ Hc key) as (cand & Ec & Eq).
  - eapply In_keys. eapply lookup_In. exact Hk.
  - exists cand. split; [exact Ec|]. unfold dict_get at 1 in Eq.
    now rewrite Hk in Eq.
Qed.

(** X17.  However [start_monitoring], [stop_monitoring] and the ends of
    the loop interleave, a thread is started only when the monitor is
    not already marked as monitoring: the threads started number at most
    one per [stop_monitoring], plus one if the monitor was idle at the
    beginning.  The end of the loop does not clear the mark, so
    [start_monitoring] after a "restart" event starts nothing until
    [stop_monitoring] has been called. *)
Theorem threads_started_bound (self : HealthMonitor) (calls : list call) :
  (threads_started self calls
     <= (if is_monitoring self then 0 else 1)
        + List.length (filter is_stop calls))%nat.
Proof.
  revert self. induction calls as [|[| |] calls IH]; intros self; simpl.
  - lia.
  - unfold start_monitoring. destruct (is_monitoring self) eqn:E.
    + specialize (IH self). rewrite E in IH. simpl. lia.
    + match goal with |- context [threads_started ?m calls] =>
        specialize (IH m) end.
      simpl in IH. simpl. lia.
  - match goal with |- context [threads_started ?m calls] =>
      specialize (IH m) end.
    simpl in IH. destruct (is_monitoring self); lia.
  - apply IH.
Qed.

Lemma assoc_dict_set {V : Type} (key k : string) (v : V)
    (m : list (string * V)) :
  assoc key (dict_set k v m) = if String.eqb key k then Some v else assoc key m.
Proof.
  induction m as [|[k' w] m IH]; simpl.
  - reflexivity.
  - destruct (String.eqb_spec k k') as [->|Hne]; simpl.
    + now destruct (String.eqb key k').
    + destruct (String.eqb_spec key k') as [->|Hne'].
      * destruct (String.eqb_spec k' k); [congruence | reflexivity].
      * exact IH.
Qed.

Lemma lookup_absent (k : string) (m : list (string * pyval)) :
  ~ In k (keys m) -> lookup k m = None.
Proof.
  induction m as [|[k' w] m IH]; simpl; [reflexivity|].
  intros H. destruct (String.eqb_spec k k') as [->|Hne]; [tauto|].
  apply IH. tauto.
Qed.

Lemma assoc_context_properties (ctx : list (string * pyval)) :
  NoDup (keys ctx) ->
  forall (acc : list (string * prop_value)) (key : string),
    assoc key (fold_left (fun props kv => dict_set (fst kv) (AsIs (snd kv)) props)
                         ctx acc)
    = match lookup key ctx with
      | Some v => Some (AsIs v)
      | None => assoc key acc
      end.
Proof.
  induction ctx as [|[k v] ctx IH]; simpl; intros Hnd acc key; [reflexivity|].
  inversion Hnd as [|? ? Hnotin Hnd']; subst.
  rewrite (IH Hnd'), assoc_dict_set.
  destruct (String.eqb_spec key k) as [->|Hne]; [|reflexivity].
  now rewrite (lookup_absent k ctx Hnotin).
Qed.

(** X18.  What a successful [_register_mdns] announces: the port of the
    record, the name [<service_id>._http._tcp.local.], and as properties
    every entry of the project context; a context key named like one of
    the identity entries ("service_id", "instance_id", "pid",
    "verification_token") replaces it, and the identity entries are
    announced only for the keys the context does not use. *)
Theorem announced_properties (self : ServiceRegistry) (z : mdns_env)
    (info : ServiceInfo) (zeroconf : Zeroconf) (mdns : MdnsInfo) :
  service_info self = Some info ->
  distinct (keys (reg_project_context self)) = true ->
  register_body self z = Ok (zeroconf, mdns) ->
  mdns_port mdns = port info /\
  mdns_service_name mdns = reg_service_id self ++ "._http._tcp.local." /\
  forall key,
    assoc key (mdns_properties mdns)
    = match lookup key (reg_project_context self) with
      | Some v => Some (AsIs v)
      | None => assoc key (identity_properties info)
      end.
Proof.
  intros Hs Hd. unfold register_body. rewrite Hs.
  destruct (import_zeroconf z) as [[]|]; simpl; [|discriminate].
  destruct (new_zeroconf z) as [zc|]; simpl; [|discriminate].
  destruct (local_ip z) as [ip|]; simpl; [|discriminate].
  destruct (make_info z) as [[]|]; simpl; [|discriminate].
  destruct (register_service z) as [[]|]; simpl; [|discriminate].
  intros [= <- <-]. simpl. split; [reflexivity|]. split; [reflexivity|].
  intros key. apply assoc_context_properties. now apply distinct_NoDup.
Qed.

End Identity.

Section Incomplete.
Context {DT : DateTime}.

Lemma from_payload_missing_key (m : list (string * pyval)) (key : string) :
  In key record_keys -> lookup key m = None ->
  from_payload (PDict m) = Raise KeyError.
Proof.
  unfold record_keys, from_payload, py_subscript. intros Hin Hk.
  destruct (lookup "service" m) eqn:E1; simpl; [|reflexivity].
  destruct (lookup "port" m) eqn:E2; simpl; [|reflexivity].
  destruct (lookup "instance_id" m) eqn:E3; simpl; [|reflexivity].
  destruct (lookup "pid" m) eqn:E4; simpl; [|reflexivity].
  destruct (lookup "project_context" m) eqn:E5; simpl; [|reflexivity].
  destruct (lookup "verification_token" m) eqn:E6; simpl; [|reflexivity].
  destruct (lookup "start_time" m) eqn:E7; simpl; [|reflexivity].
  simpl in Hin.
  destruct Hin as [<-|[<-|[<-|[<-|[<-|[<-|[<-|[]]]]]]]]; congruence.
Qed.

(** X19.  A candidate whose body is a JSON object that lacks one of the
    fields the scanner reads ("status", "service", "port",
    "instance_id", "pid", "project_context", "verification_token",
    "start_time") is passed over, whatever service id and context are
    expected: the scan goes on to the next port. *)
Theorem incomplete_candidate_is_skipped (fetch : Z -> result pyval)
    (expected_service_id expected : pyval) (p : Z)
    (m : list (string * pyval)) (key : string) :
  fetch p = Ok (PDict m) ->
  In key payload_keys ->
  lookup key m = None ->
  skipped fetch expected_service_id expected p.
Proof.
  intros Hf Hin Hk. unfold skipped, check_port. rewrite Hf. simpl.
  destruct (py_eq (dict_get m "service") expected_service_id); [|now left].
  destruct (py_eq (dict_get m "status") (PStr "healthy")) eqn:Est; [|now left].
  destruct Hin as [<-|Hin].
  - unfold dict_get in Est. rewrite Hk in Est. discriminate.
  - rewrite (from_payload_missing_key m key Hin Hk). simpl.
    right. exists KeyError. now split.
Qed.

(** X20.  A health response with another [instance_id] or [pid] whose
    body lacks a field of the record is not reported as a restart: the
    [KeyError] makes the cycle a service-down cycle, which fires
    "recovery" or "disconnected" (or nothing) after the recovery
    scan. *)
Theorem incomplete_restart_is_service_down (self : ServiceInfo)
    (c : cycle_env) (m : list (string * pyval)) (key : string) :
  health c = Ok (PDict m) ->
  py_eq (dict_get m "instance_id") (instance_id self) = false \/
  py_eq (dict_get m "pid") (pid self) = false ->
  In key record_keys ->
  lookup key m = None ->
  monitor_cycle self c = service_down_cycle self c /\
  Forall (fun e => event_type e <> "restart") (events (monitor_cycle self c)).
Proof.
  intros Hh Hd Hin Hk.
  assert (monitor_cycle self c = service_down_cycle self c) as E.
  { unfold monitor_cycle, health_check, py_ne.
    rewrite Hh. simpl.
    assert ((if negb (py_eq (dict_get m "instance_id") (instance_id self))
             then Ok true
             else Ok (negb (py_eq (dict_get m "pid") (pid self))))
            = Ok true) as ->.
    { destruct (py_eq (dict_get m "instance_id") (instance_id self)); simpl;
        [|reflexivity].
      destruct Hd as [Hd|Hd]; [discriminate | now rewrite Hd]. }
    simpl. rewrite (from_payload_missing_key m key Hin Hk). simpl.
    reflexivity. }
  split; [exact E|]. rewrite E. apply service_down_cycle_events.
Qed.

(** X21.  "disconnected" is fired only after the whole window was
    scanned: in a cycle that fires it for a tracked port [p], the
    monitor has requested the health endpoint and then every port of
    [p - 10 .. p + 10] in ascending order. *)
Theorem disconnected_after_full_scan (self : ServiceInfo) (c : cycle_env)
    (p : Z) (e : ServiceChangeEvent) :
  port self = PInt p ->
  In e (events (monitor_cycle self c)) ->
  event_type e = "disconnected" ->
  probes (monitor_cycle self c)
    = Health (PInt p) :: map Scan (py_range (p - 10) (p + 11)).
Proof.
  intros Hport Hin Htype.
  assert (In e (events (service_down_cycle self c)) ->
          probes (service_down_cycle self c)
            = Health (PInt p) :: map Scan (py_range (p - 10) (p + 11)))
    as Hdown.
  { unfold service_down_cycle, _handle_service_down. rewrite Hport. simpl.
    destruct (discover_service (p + -10, p + 10) (scan_fetch c)
                (service_id self) (project_context self))
      as [probed [[new|]|y]] eqn:Ed; simpl.
    - intros [<-|[]]. discriminate Htype.
    - intros _.
      pose proof (proj2 (discover_service_none_iff_aux _ _ _ _ _ Ed)) as Hp.
      simpl in Hp. rewrite Hp. do 3 f_equal; lia.
    - intros []. }
  destruct (monitor_cycle_cases self c)
    as [E|[(x & _ & E)|[E|[(new & _ & E)|[(new & x & _ & _ & E)
                                         |(new & x & _ & _ & E)]]]]];
    rewrite E in Hin |- *; simpl in Hin.
  - destruct Hin.
  - destruct Hin.
  - now apply Hdown.
  - destruct Hin as [<-|[]]. discriminate Htype.
  - destruct Hin as [<-|[]]. discriminate Htype.
  - destruct Hin as [<-|Hin]; [discriminate Htype|]. now apply Hdown.
Qed.

End Incomplete.

(** ** Concrete runs of the further properties *)

Section MoreRuns.
Import Basic Run.
Local Open Scope Z_scope.

(** X1, at a scan that finds the service at port 7772. *)
Lemma discover_service_first_accepted_witness :
  let fetch := only 7772 (good "instance-2" 7772 5151) in
  let expected := PDict [("version", PStr "1.0")] in
  let found := record "instance-2" 7772 5151 [("version", PStr "1.0")] in
  fst (7770, 7779) <= 7772 <= snd (7770, 7779) /\
  (forall r, 7770 <= r < 7772 -> skipped fetch (PStr "backend-api") expected r) /\
  check_port fetch (PStr "backend-api") expected 7772 = Ok (Some found) /\
  discover_service (7770, 7779) fetch (PStr "backend-api") expected
    = ([7770; 7771; 7772], Ok (Some found)).
Proof.
  intros fetch expected found.
  assert (fst (7770, 7779) <= 7772 <= snd (7770, 7779)) as Hq by (simpl; lia).
  assert (forall r, 7770 <= r < 7772 ->
            skipped fetch (PStr "backend-api") expected r) as Hskip.
  { intros r Hr. right. exists URLError.
    assert (r = 7770 \/ r = 7771) as [-> | ->] by lia; split; reflexivity. }
  split; [exact Hq|]. split; [exact Hskip|]. split; [reflexivity|].
  apply (discover_service_first_accepted (7770, 7779) fetch
           (PStr "backend-api") expected 7772 found Hq).
  split; [reflexivity | exact Hskip].
Defined.

(** X4, at the scan that meets the unreadable [start_time]. *)
Lemma discover_service_raises_unhandled_witness :
  discover_service (7770, 7779) (only 7772 (bad_start_time 7772))
      (PStr "backend-api") (PDict [])
    = ([7770; 7771; 7772], Raise ValueError) /\
  caught ValueError = false.
Proof.
  assert (discover_service (7770, 7779) (only 7772 (bad_start_time 7772))
            (PStr "backend-api") (PDict [])
          = ([7770; 7771; 7772], Raise ValueError)) as E by reflexivity.
  split; [exact E|].
  apply (discover_service_raises_unhandled _ _ _ _ _ _ E).
Defined.

(** X5, at a start with the preferred port and 7770..7772 taken. *)
Lemma start_returns_first_bindable_witness :
  let env := host from_7773 zeroconf_works in
  let info := record "instance-1" 7773 4242 [("version", PStr "1.0")] in
  returned (snd (start registry env (Some 7771))) = Ok info /\
  exists p pre,
    port info = PInt p /\
    fst (start registry env (Some 7771)) = (pre ++ [p])%list /\
    bindable env p = true /\
    (forall q, In q pre -> bindable env q = false) /\
    (Some 7771 = Some p \/
     fst (reg_port_range registry) <= p <= snd (reg_port_range registry)).
Proof.
  intros env info. split; [reflexivity|].
  apply (start_returns_first_bindable registry env (Some 7771) info eq_refl).
Defined.

(** X6, at the registry started with an announcement. *)
Lemma health_response_round_trip_witness :
  let info := record "instance-1" 7770 4242 [] in
  service_info registered = Some info /\
  fromisoformat (isoformat (start_time info)) = Some (start_time info) /\
  from_payload (health_response registered noon) = Ok info.
Proof.
  intros info. split; [reflexivity|]. split; [reflexivity|].
  apply (health_response_round_trip registered info noon eq_refl eq_refl).
Defined.

(** X7, at a registry started at 7773 and a scan of 7770..7779. *)
Lemma discover_finds_started_service_witness :
  let env := host from_7773 zeroconf_works in
  let info := record "instance-1" 7773 4242 [("version", PStr "1.0")] in
  let fetch :=
    only 7773 (health_response (after (snd (start registry env None))) noon) in
  returned (snd (start registry env None)) = Ok info /\
  discover_service (7770, 7779) fetch (PStr "backend-api")
                   (PDict [("version", PStr "1.0")])
    = ([7770; 7771; 7772; 7773], Ok (Some info)).
Proof.
  intros env info fetch. split; [reflexivity|].
  apply (discover_finds_started_service registry env None info (7770, 7779)
           fetch 7773 noon eq_refl eq_refl eq_refl);
    [simpl; lia | reflexivity |].
  intros r Hr. simpl in Hr. right. exists URLError.
  assert (r = 7770 \/ r = 7771 \/ r = 7772) as [->|[->| ->]] by lia;
    split; reflexivity.
Defined.

(** X9, at two cycles answered by the tracked instance. *)
Lemma monitor_quiet_while_unchanged_witness :
  Forall (answers_as tracked) [same; same] /\
  _monitor_loop tracked [same; same] =
    {| requests := [Health (PInt 7775); Health (PInt 7775)];
       fired := [];
       ended := Polling |}.
Proof.
  assert (answers_as tracked same) as H.
  { split; [reflexivity|].
    exists (bindings (good "instance-1" 7775 4242)).
    repeat split; reflexivity. }
  assert (Forall (answers_as tracked) [same; same]) as Hall
    by (constructor; [exact H|]; constructor; [exact H|]; constructor).
  split; [exact Hall|].
  apply (monitor_quiet_while_unchanged tracked [same; same] Hall).
Defined.

(** X11, at a run that loses the service and then sees it replaced. *)
Lemma restart_event_is_last_witness :
  Forall restart_accepted [down; replaced] /\
  ended (_monitor_loop tracked [down; replaced]) = Returned /\
  exists earlier new,
    fired (_monitor_loop tracked [down; replaced])
      = (earlier ++ [restart_event tracked new])%list /\
    Forall (fun e => event_type e <> "restart") earlier.
Proof.
  assert (Forall restart_accepted [down; replaced]) as Hall.
  { constructor; [intros e _; reflexivity|].
    constructor; [intros e _; reflexivity | constructor]. }
  assert (ended (_monitor_loop tracked [down; replaced]) = Returned) as Hend
    by reflexivity.
  split; [exact Hall|]. split; [exact Hend|].
  apply (restart_event_is_last tracked [down; replaced] Hall). exact Hend.
Defined.

(** X12, at a run ended by the callback, which fails with [KeyError]
    when told that the service is disconnected. *)
Lemma monitor_dies_only_unhandled_witness :
  ended (_monitor_loop tracked [same; down_unheard]) = Died KeyError /\
  (caught KeyError = false \/
   exists c earlier event,
     In c [same; down_unheard] /\
     fired (_monitor_loop tracked [same; down_unheard])
       = (earlier ++ [event])%list /\
     event_type event <> "restart" /\
     on_change c event = Raise KeyError).
Proof.
  assert (ended (_monitor_loop tracked [same; down_unheard]) = Died KeyError)
    as Hend by reflexivity.
  split; [exact Hend|].
  apply (monitor_dies_only_unhandled tracked [same; down_unheard] KeyError Hend).
Defined.

(** X22, at a cycle answered by the tracked instance and at one answered
    by another instance. *)
Lemma monitor_cycle_healthy_response_witness :
  let m := bindings (good "instance-1" 7775 4242) in
  let m' := bindings (good "instance-2" 7775 5151) in
  let new := record "instance-2" 7775 5151 [("version", PStr "1.0")] in
  (stop_requested same = false /\ health same = Ok (PDict m) /\
   monitor_cycle tracked same =
     {| probes := [Health (port tracked)]; events := []; next := Ok Sleep |}) /\
  (stop_requested replaced = false /\ health replaced = Ok (PDict m') /\
   py_eq (dict_get m' "instance_id") (instance_id tracked) = false /\
   payload_of m' new "2024-03-01T12:00:00" /\
   on_change replaced (restart_event tracked new) = Ok tt /\
   _monitor_loop tracked [replaced; same] =
     {| requests := [Health (port tracked)];
        fired := [restart_event tracked new];
        ended := Returned |}).
Proof.
  intros m m' new.
  assert (payload_of m' new "2024-03-01T12:00:00") as Hpay
    by (repeat split; reflexivity).
  split.
  - split; [reflexivity|]. split; [reflexivity|].
    apply (monitor_cycle_healthy_response tracked same [replaced] m
             eq_refl eq_refl); reflexivity.
  - split; [reflexivity|]. split; [reflexivity|]. split; [reflexivity|].
    split; [exact Hpay|]. split; [reflexivity|].
    destruct (monitor_cycle_healthy_response tracked replaced [same] m'
                eq_refl eq_refl) as [_ Hrestart].
    destruct (Hrestart (or_introl eq_refl) new _ Hpay) as [Hreturns _].
    apply Hreturns. reflexivity.
Defined.

(** X13, at a stop read in the second cycle. *)
Lemma stop_ends_the_loop_witness :
  let halt := {| stop_requested := true; health := Raise URLError;
                 scan_fetch := nobody; on_change := listens |} in
  stop_requested halt = true /\
  requests (_monitor_loop tracked ([same] ++ halt :: [down]))
    = [Health (PInt 7775)] /\
  fired (_monitor_loop tracked ([same] ++ halt :: [down])) = [] /\
  ended (_monitor_loop tracked ([same] ++ halt :: [down])) = Stopped.
Proof.
  intros halt. split; [reflexivity|].
  apply (stop_ends_the_loop tracked [same] halt [down] eq_refl).
Defined.

(** X14, at the tracked record of port 7775. *)
Lemma recovery_scan_window_witness :
  port tracked = PInt 7775 /\
  forall q, In (Scan q) (requests (_monitor_loop tracked [down; moved])) ->
    7765 <= q <= 7785.
Proof.
  split; [reflexivity|].
  apply (recovery_scan_window tracked [down; moved] 7775 eq_refl).
Defined.

(** X15, at three records of one instance seen at three ports. *)
Lemma verify_service_identity_trans_witness :
  let a := record "instance-1" 7775 4242 [] in
  let b := record "instance-1" 7776 4242 [("version", PStr "1.0")] in
  let c := record "instance-1" 7777 4242 [("version", PStr "2.0")] in
  verify_service_identity a b = true /\
  verify_service_identity b c = true /\
  verify_service_identity a c = true.
Proof.
  intros a b c. split; [reflexivity|]. split; [reflexivity|].
  apply (verify_service_identity_trans a b c eq_refl eq_refl).
Defined.

(** X16, at a run that recovers the service at port 7778. *)
Lemma recovery_event_matches_tracked_witness :
  In recovery_event (fired (_monitor_loop tracked [same; moved])) /\
  event_type recovery_event = "recovery" /\
  exists new tracked_context,
    new_service recovery_event = Some new /\
    py_eq (service_id new) (service_id tracked) = true /\
    status new = PStr "healthy" /\
    project_context tracked = PDict tracked_context /\
    context_gets_agree tracked_context new.
Proof.
  assert (In recovery_event (fired (_monitor_loop tracked [same; moved])))
    as Hin by (left; reflexivity).
  split; [exact Hin|]. split; [reflexivity|].
  apply (recovery_event_matches_tracked tracked [same; moved] recovery_event
           Hin eq_refl).
Defined.

(** X18, at a registry whose context has a key named "pid". *)
Lemma announced_properties_witness :
  let self :=
    after (snd (start (init "backend-api" (7770, 7779)
                            (Some [("pid", PStr "none"); ("version", PStr "1.0")])
                            None)
                      (host all_free zeroconf_works) None)) in
  exists info mdns,
    service_info self = Some info /\
    distinct (keys (reg_project_context self)) = true /\
    register_body self zeroconf_works = Ok (ZeroconfHandle, mdns) /\
    assoc "pid" (mdns_properties mdns) = Some (AsIs (PStr "none")) /\
    assoc "instance_id" (mdns_properties mdns) = Some (AsIs (PStr "instance-1")).
Proof.
  intros self.
  destruct (register_body self zeroconf_works) as [[zc mdns]|e] eqn:E;
    [|discriminate E].
  destruct zc.
  exists (record "instance-1" 7770 4242
            [("pid", PStr "none"); ("version", PStr "1.0")]), mdns.
  split; [reflexivity|]. split; [reflexivity|]. split; [reflexivity|].
  pose proof (announced_properties self zeroconf_works _ ZeroconfHandle mdns
                eq_refl eq_refl E) as (_ & _ & Hprops).
  split; [apply (Hprops "pid") | apply (Hprops "instance_id")].
Defined.

(** X19, at a body with no "port" field. *)
Lemma incomplete_candidate_is_skipped_witness :
  let m := [("service", PStr "backend-api"); ("status", PStr "healthy")] in
  only 7770 (PDict m) 7770 = Ok (PDict m) /\
  In "port" payload_keys /\
  lookup "port" m = None /\
  skipped (only 7770 (PDict m)) (PStr "backend-api") (PDict []) 7770.
Proof.
  intros m.
  assert (In "port" payload_keys) as Hin by (right; right; left; reflexivity).
  split; [reflexivity|]. split; [exact Hin|]. split; [reflexivity|].
  apply (incomplete_candidate_is_skipped (only 7770 (PDict m))
           (PStr "backend-api") (PDict []) 7770 m "port" eq_refl Hin eq_refl).
Defined.

(** X20, at a response of another instance that names only its ids. *)
Lemma incomplete_restart_is_service_down_witness :
  let m := [("instance_id", PStr "instance-2"); ("pid", PInt 5151)] in
  let c := {| stop_requested := false; health := Ok (PDict m);
              scan_fetch := nobody; on_change := listens |} in
  health c = Ok (PDict m) /\
  py_eq (dict_get m "instance_id") (instance_id tracked) = false /\
  In "service" record_keys /\
  lookup "service" m = None /\
  monitor_cycle tracked c = service_down_cycle tracked c.
Proof.
  intros m c.
  assert (In "service" record_keys) as Hin by (left; reflexivity).
  split; [reflexivity|]. split; [reflexivity|]. split; [exact Hin|].
  split; [reflexivity|].
  apply (incomplete_restart_is_service_down tracked c m "service" eq_refl
           (or_introl eq_refl) Hin eq_refl).
Defined.

(** X21, at a cycle with nothing answering in the window. *)
Lemma disconnected_after_full_scan_witness :
  port tracked = PInt 7775 /\
  In disconnected_event (events (monitor_cycle tracked down)) /\
  event_type disconnected_event = "disconnected" /\
  probes (monitor_cycle tracked down)
    = Health (PInt 7775) :: map Scan (py_range 7765 7786).
Proof.
  assert (In disconnected_event (events (monitor_cycle tracked down))) as Hin
    by (left; reflexivity).
  split; [reflexivity|]. split; [exact Hin|]. split; [reflexivity|].
  apply (disconnected_after_full_scan tracked down 7775 disconnected_event
           eq_refl Hin eq_refl).
Defined.

End MoreRuns.

End Shuffle.
